(** * ServerPet: the sampling-and-classification core of [app.py]

    A shallow embedding of the monitoring core of [AdvancedSystemPetGUI]:
    the bounded history deques, the network rate expression, the mood
    classifier [determine_mood], the statistics counters, the alert gate
    and the [monitor_system] loop with its per-tick exception handler,
    together with the averages computed by [update_statistics_display].

    Numbers.  Python floats are modelled by the rationals [Q] and Python
    ints by [Z]; comparisons between the two are exact in Python, so the
    comparisons of the classifier are modelled exactly.  Rounding of float
    arithmetic is not modelled.  Float division raises [ZeroDivisionError]
    on a zero divisor, which the model keeps as an explicit exception. *)

From Stdlib Require Import QArith Qabs Qround ZArith List Bool Lia Lqa.
From Stdlib Require String.
Import String.StringSyntax.
Import ListNotations.
Delimit Scope string_scope with string.
Local Open Scope Q_scope.

(** ** Python numeric primitives *)

Module Py.

(** [a > b] and [a < b] on numbers. *)
Definition gt (a b : Q) : bool := negb (Qle_bool a b).
Definition lt (a b : Q) : bool := negb (Qle_bool b a).

(** [max(a, b)] returns its first argument unless the second is
    strictly greater; [min(a, b)] returns its first argument unless the
    second is strictly smaller. *)
Definition max (a b : Q) : Q := if gt b a then b else a.
Definition min (a b : Q) : Q := if lt b a then b else a.

(** [sum(xs)]: left-to-right addition starting from 0. *)
Definition sum (xs : list Q) : Q := fold_left Qplus xs 0.

(** [len(xs)] as a number. *)
Definition len {A : Type} (xs : list A) : Q := inject_Z (Z.of_nat (length xs)).

End Py.

(** ** Exceptions and outcomes *)

Inductive Exn : Type :=
| MetricError        (* a psutil read raised *)
| ZeroDivisionError.

Inductive Outcome (A : Type) : Type :=
| Ok (a : A)
| Raised (e : Exn).
Arguments Ok {A} a.
Arguments Raised {A} e.

Definition obind {A B : Type} (m : Outcome A) (f : A -> Outcome B) : Outcome B :=
  match m with
  | Ok a => f a
  | Raised e => Raised e
  end.

Notation "x <-? m ;; k" := (obind m (fun x => k))
  (at level 61, m at next level, right associativity).

(** [a / b] on floats. *)
Definition py_div (a b : Q) : Outcome Q :=
  if Qeq_bool b 0 then Raised ZeroDivisionError else Ok (a / b).

(** ** collections.deque(maxlen=n)

    The deque is the list of its items, oldest first.  [append] adds on
    the right; when the deque is then longer than [maxlen], the leftmost
    item is discarded. *)

Module Deque.

Definition append {A : Type} (maxlen : nat) (d : list A) (x : A) : list A :=
  let d' := d ++ [x] in
  if (maxlen <? length d')%nat then tl d' else d'.

(** A sequence of appends on an initially empty deque. *)
Definition pushes {A : Type} (maxlen : nat) (xs : list A) : list A :=
  fold_left (append maxlen) xs [].

End Deque.

(** The capacity given at lines 56-59: [deque(maxlen=60)]. *)
Definition maxlen : nat := 60.

(** ** Moods and the classifier *)

Inductive Mood : Type := happy | content | worried | critical.

Definition Mood_eqb (a b : Mood) : bool :=
  match a, b with
  | happy, happy | content, content | worried, worried | critical, critical => true
  | _, _ => false
  end.

(** [determine_mood(cpu, ram, disk)]; [threshold] is the value read from
    [cpu_thresh_slider.get()]. *)
Definition determine_mood (cpu ram disk threshold : Q) : Mood :=
  if Py.gt cpu threshold || Py.gt ram threshold || Py.gt disk threshold then critical
  else if Py.gt cpu 75 || Py.gt ram 75 || Py.gt disk 75 then worried
  else if Py.lt cpu 30 && Py.lt ram 50 && Py.lt disk 70 then happy
  else content.

(** ** The state of the application object

    Only the attributes of [self] that the monitoring core reads or
    writes are kept. *)

(** The two fields of [psutil.net_io_counters()] that are used. *)
Record NetIO : Type := mkNetIO {
  bytes_sent : Z;
  bytes_recv : Z
}.

(** [self.stats]; the three time counters hold Python ints. *)
Record Stats : Type := mkStats {
  happy_time : Z;
  worried_time : Z;
  critical_time : Z;
  total_time : Q;
  max_cpu : Q;
  max_ram : Q;
  max_disk : Q
}.

Record App : Type := mkApp {
  alert_shown : bool;
  cpu_history : list Q;
  ram_history : list Q;
  disk_history : list Q;
  net_history : list Q;
  last_net_io : NetIO;
  last_net_time : Q;
  stats : Stats
}.

(** Attribute and dictionary-item assignments. *)

Definition set_alert_shown (v : bool) (s : App) : App :=
  mkApp v (cpu_history s) (ram_history s) (disk_history s) (net_history s)
        (last_net_io s) (last_net_time s) (stats s).
Definition set_cpu_history (v : list Q) (s : App) : App :=
  mkApp (alert_shown s) v (ram_history s) (disk_history s) (net_history s)
        (last_net_io s) (last_net_time s) (stats s).
Definition set_ram_history (v : list Q) (s : App) : App :=
  mkApp (alert_shown s) (cpu_history s) v (disk_history s) (net_history s)
        (last_net_io s) (last_net_time s) (stats s).
Definition set_disk_history (v : list Q) (s : App) : App :=
  mkApp (alert_shown s) (cpu_history s) (ram_history s) v (net_history s)
        (last_net_io s) (last_net_time s) (stats s).
Definition set_net_history (v : list Q) (s : App) : App :=
  mkApp (alert_shown s) (cpu_history s) (ram_history s) (disk_history s) v
        (last_net_io s) (last_net_time s) (stats s).
Definition set_last_net_io (v : NetIO) (s : App) : App :=
  mkApp (alert_shown s) (cpu_history s) (ram_history s) (disk_history s)
        (net_history s) v (last_net_time s) (stats s).
Definition set_last_net_time (v : Q) (s : App) : App :=
  mkApp (alert_shown s) (cpu_history s) (ram_history s) (disk_history s)
        (net_history s) (last_net_io s) v (stats s).
Definition set_stats (v : Stats) (s : App) : App :=
  mkApp (alert_shown s) (cpu_history s) (ram_history s) (disk_history s)
        (net_history s) (last_net_io s) (last_net_time s) v.

Definition set_happy_time (v : Z) (t : Stats) : Stats :=
  mkStats v (worried_time t) (critical_time t) (total_time t)
          (max_cpu t) (max_ram t) (max_disk t).
Definition set_worried_time (v : Z) (t : Stats) : Stats :=
  mkStats (happy_time t) v (critical_time t) (total_time t)
          (max_cpu t) (max_ram t) (max_disk t).
Definition set_critical_time (v : Z) (t : Stats) : Stats :=
  mkStats (happy_time t) (worried_time t) v (total_time t)
          (max_cpu t) (max_ram t) (max_disk t).
Definition set_total_time (v : Q) (t : Stats) : Stats :=
  mkStats (happy_time t) (worried_time t) (critical_time t) v
          (max_cpu t) (max_ram t) (max_disk t).
Definition set_max_cpu (v : Q) (t : Stats) : Stats :=
  mkStats (happy_time t) (worried_time t) (critical_time t) (total_time t)
          v (max_ram t) (max_disk t).
Definition set_max_ram (v : Q) (t : Stats) : Stats :=
  mkStats (happy_time t) (worried_time t) (critical_time t) (total_time t)
          (max_cpu t) v (max_disk t).
Definition set_max_disk (v : Q) (t : Stats) : Stats :=
  mkStats (happy_time t) (worried_time t) (critical_time t) (total_time t)
          (max_cpu t) (max_ram t) v.

(** The state built by [__init__] (lines 53-77): [net0] and [t0] are the
    counters and the clock read at lines 62-63. *)
Definition init (net0 : NetIO) (t0 : Q) : App :=
  mkApp false [] [] [] [] net0 t0 (mkStats 0 0 0 0 0 0 0).

(** ** What one loop iteration observes

    The readings of the environment during one iteration of the loop: the
    four psutil reads ([None] when the call raises), the two clock
    readings (lines 966 and 980) and the two widget values. *)
Record Env : Type := mkEnv {
  cpu_percent : option Q;
  virtual_memory_percent : option Q;
  disk_usage_percent : option Q;
  net_io_counters : option NetIO;
  time_at_966 : Q;
  time_at_980 : Q;
  cpu_thresh_slider : Q;
  alert_enabled : bool
}.

(** Callbacks handed to [root.after(0, ...)], waits of [time.sleep] and
    lines printed by the exception handler, in the order they are
    issued. *)
Inductive Event : Type :=
| after_update_ui (cpu ram disk net_speed : Q) (new_mood : Mood)
| after_show_alert (cpu ram disk : Q)
| time_sleep (seconds : Z)
| print_error (e : Exn).

(** ** A state-and-exception monad for method bodies

    A computation runs on the object, may mutate it, may issue events and
    either returns or raises.  A raise keeps the mutations done so far,
    as in Python. *)

Definition M (A : Type) : Type := App -> Outcome A * App * list Event.

Definition ret {A : Type} (a : A) : M A := fun s => (Ok a, s, []).

Definition bind {A B : Type} (m : M A) (f : A -> M B) : M B :=
  fun s =>
    match m s with
    | (Ok a, s1, out1) =>
        match f a s1 with
        | (r, s2, out2) => (r, s2, out1 ++ out2)
        end
    | (Raised e, s1, out1) => (Raised e, s1, out1)
    end.

Notation "x <- m ;; k" := (bind m (fun x => k))
  (at level 61, m at next level, right associativity).
Notation "m ;;; k" := (bind m (fun _ => k))
  (at level 61, right associativity).

Definition get : M App := fun s => (Ok s, s, []).
Definition modify (f : App -> App) : M unit := fun s => (Ok tt, f s, []).
Definition emit (e : Event) : M unit := fun s => (Ok tt, s, [e]).
Definition lift {A : Type} (o : Outcome A) : M A := fun s => (o, s, []).

(** A psutil call: its value, or an exception. *)
Definition read {A : Type} (r : option A) : M A :=
  match r with
  | Some a => ret a
  | None => lift (Raised MetricError)
  end.

Definition modify_stats (f : Stats -> Stats) : M unit :=
  modify (fun s => set_stats (f (stats s)) s).

(** ** The network rate (lines 967-970)

    [net_speed = (bytes_sent + bytes_recv) / time_delta / 1024], in KB/s. *)
Definition net_speed (last_io : NetIO) (last_time : Q)
                     (net_io : NetIO) (current_time : Q) : Outcome Q :=
  let time_delta := current_time - last_time in
  let sent := (bytes_sent net_io - bytes_sent last_io)%Z in
  let recv := (bytes_recv net_io - bytes_recv last_io)%Z in
  q <-? py_div (inject_Z (sent + recv)) time_delta ;;
  py_div q 1024.

(** The sample stored in [net_history] (line 976). *)
Definition net_sample (speed : Q) : Q := Py.min (speed / 1024 * 10) 100.

Definition poll_interval : Z := 2.

(** ** The alert gate (lines 989-993) *)
Definition alert_gate (cpu ram disk : Q) (new_mood : Mood) (enabled : bool) : M unit :=
  self <- get ;;
  if Mood_eqb new_mood critical && negb (alert_shown self) && enabled then
    emit (after_show_alert cpu ram disk) ;;;
    modify (set_alert_shown true)
  else if negb (Mood_eqb new_mood critical) then
    modify (set_alert_shown false)
  else ret tt.

(** ** The body of the [try] block of [monitor_system] (lines 962-994) *)
Definition try_body (start_time : Q) (env : Env) : M unit :=
  cpu <- read (cpu_percent env) ;;
  ram <- read (virtual_memory_percent env) ;;
  disk <- read (disk_usage_percent env) ;;
  net_io <- read (net_io_counters env) ;;
  let current_time := time_at_966 env in
  self <- get ;;
  speed <- lift (net_speed (last_net_io self) (last_net_time self) net_io current_time) ;;
  modify (set_last_net_io net_io) ;;;
  modify (set_last_net_time current_time) ;;;
  modify (fun s => set_cpu_history (Deque.append maxlen (cpu_history s) cpu) s) ;;;
  modify (fun s => set_ram_history (Deque.append maxlen (ram_history s) ram) s) ;;;
  modify (fun s => set_disk_history (Deque.append maxlen (disk_history s) disk) s) ;;;
  modify (fun s => set_net_history (Deque.append maxlen (net_history s) (net_sample speed)) s) ;;;
  modify_stats (fun t => set_max_cpu (Py.max (max_cpu t) cpu) t) ;;;
  modify_stats (fun t => set_max_ram (Py.max (max_ram t) ram) t) ;;;
  modify_stats (fun t => set_max_disk (Py.max (max_disk t) disk) t) ;;;
  modify_stats (set_total_time (time_at_980 env - start_time)) ;;;
  let new_mood := determine_mood cpu ram disk (cpu_thresh_slider env) in
  (if Mood_eqb new_mood happy then
     modify_stats (fun t => set_happy_time (happy_time t + poll_interval) t)
   else if Mood_eqb new_mood worried then
     modify_stats (fun t => set_worried_time (worried_time t + poll_interval) t)
   else if Mood_eqb new_mood critical then
     modify_stats (fun t => set_critical_time (critical_time t + poll_interval) t)
   else ret tt) ;;;
  emit (after_update_ui cpu ram disk speed new_mood) ;;;
  alert_gate cpu ram disk new_mood (alert_enabled env) ;;;
  emit (time_sleep poll_interval).

(** One iteration of the [while] loop: the [try] block and its
    [except Exception] handler, which prints and lets the loop go on. *)
Definition iteration (start_time : Q) (env : Env) (s : App) : App * list Event :=
  match try_body start_time env s with
  | (Ok _, s', out) => (s', out)
  | (Raised e, s', out) => (s', out ++ [print_error e])
  end.

(** [monitor_system]: one element of [envs] per iteration in which
    [self.running] was found true. *)
Fixpoint monitor_system (start_time : Q) (envs : list Env) (s : App)
  : App * list Event :=
  match envs with
  | [] => (s, [])
  | env :: rest =>
      let '(s1, out1) := iteration start_time env s in
      let '(s2, out2) := monitor_system start_time rest s1 in
      (s2, out1 ++ out2)
  end.

(** States of the object at iteration boundaries of a session. *)
Definition reachable (s : App) : Prop :=
  exists net0 t0 start_time envs,
    s = fst (monitor_system start_time envs (init net0 t0)).

(** ** The statistics display (lines 1066-1092)

    The numbers that the f-string formats, in the order they are
    evaluated; the formatting itself ([:.1f], [format_uptime]) is not
    modelled. *)
Record StatsText : Type := mkStatsText {
  shown_total_time : Q;
  happy_percent : Q;
  worried_percent : Q;
  critical_percent : Q;
  shown_max_cpu : Q;
  shown_max_ram : Q;
  shown_max_disk : Q;
  average_cpu : Q;
  average_ram : Q;
  average_disk : Q
}.

(** What the call does to [stats_label]: nothing, or [configure(text=...)]. *)
Inductive Display : Type :=
| NoUpdate
| Configure (text : StatsText).

(** [sum(h)/len(h)]. *)
Definition average (h : list Q) : Outcome Q := py_div (Py.sum h) (Py.len h).

(** [(self.stats[k] / total_time) * 100]. *)
Definition percent_of (t : Z) (total : Q) : Outcome Q :=
  q <-? py_div (inject_Z t) total ;; Ok (q * 100).

Definition update_statistics_display (self : App) : Outcome Display :=
  let total := total_time (stats self) in
  if Py.gt total 0 then
    hp <-? percent_of (happy_time (stats self)) total ;;
    wp <-? percent_of (worried_time (stats self)) total ;;
    cp <-? percent_of (critical_time (stats self)) total ;;
    ac <-? average (cpu_history self) ;;
    ar <-? average (ram_history self) ;;
    ad <-? average (disk_history self) ;;
    Ok (Configure (mkStatsText total hp wp cp
                     (max_cpu (stats self)) (max_ram (stats self)) (max_disk (stats self))
                     ac ar ad))
  else Ok NoUpdate.

(** ** Observations on traces *)

Definition is_show_alert (e : Event) : bool :=
  match e with after_show_alert _ _ _ => true | _ => false end.

(** Number of alerts issued in a trace. *)
Definition alerts (out : list Event) : nat := length (filter is_show_alert out).

(** Number of UI updates (one per completed tick) carrying mood [m]. *)
Definition is_update_with (m : Mood) (e : Event) : bool :=
  match e with after_update_ui _ _ _ _ m' => Mood_eqb m' m | _ => false end.

Definition ticks_with (m : Mood) (out : list Event) : Z :=
  Z.of_nat (length (filter (is_update_with m) out)).

(** The gate driven tick by tick: each entry gives the mood of the tick
    and the value of the alert checkbox; the result lists how many alerts
    each tick issued. *)
Fixpoint gate_fires (ticks : list (Mood * bool)) (s : App) : list nat :=
  match ticks with
  | [] => []
  | (m, enabled) :: rest =>
      match alert_gate 0 0 0 m enabled s with
      | (_, s', out) => alerts out :: gate_fires rest s'
      end
  end.

(** The per-iteration traces of [monitor_system]. *)
Fixpoint iteration_traces (start_time : Q) (envs : list Env) (s : App)
  : list (list Event) :=
  match envs with
  | [] => []
  | env :: rest =>
      let '(s1, out1) := iteration start_time env s in
      out1 :: iteration_traces start_time rest s1
  end.

(** A reading in which every psutil call returns. *)
Definition sample_env (cpu ram disk : Q) (io : NetIO) (t threshold : Q) (enabled : bool) : Env :=
  mkEnv (Some cpu) (Some ram) (Some disk) (Some io) t t threshold enabled.

(** Does any psutil read of the iteration raise? *)
Definition metric_read_fails (env : Env) : bool :=
  match cpu_percent env, virtual_memory_percent env,
        disk_usage_percent env, net_io_counters env with
  | Some _, Some _, Some _, Some _ => false
  | _, _, _, _ => true
  end.

(** ** Presentation helpers

    The functions of the class that turn numbers into what is shown.
    String formatting of a number ([:.1f], [:.2f]) is not modelled: a
    formatted value is represented by the number itself. *)

(** *** [format_uptime] (lines 932-943)

    [datetime.timedelta] keeps [days] and [0 <= seconds < 86400]; the
    microseconds are not read by [format_uptime]. *)
Record timedelta : Type := mk_timedelta {
  days : Z;
  seconds : Z
}.

(** [timedelta(seconds=n)] for an int [n]: normalisation by floor
    division. *)
Definition timedelta_of_seconds (n : Z) : timedelta :=
  mk_timedelta (n / 86400) (n mod 86400).

(** The three layouts: ["{days}d {hours}h {minutes}m"],
    ["{hours}h {minutes}m"] and ["{minutes}m"]. *)
Inductive UptimeText : Type :=
| text_dhm (d h m : Z)
| text_hm (h m : Z)
| text_m (m : Z).

Definition format_uptime (uptime : timedelta) : UptimeText :=
  let d := days uptime in
  let hours := (seconds uptime / 3600)%Z in
  let remainder := (seconds uptime mod 3600)%Z in
  let minutes := (remainder / 60)%Z in
  if (0 <? d)%Z then text_dhm d hours minutes
  else if (0 <? hours)%Z then text_hm hours minutes
  else text_m minutes.

(** *** [format_bytes] (lines 809-816) *)

(** Rounding to the nearest integer, ties to the even one. *)
Definition round_half_even (y : Q) : Z :=
  let f := Qfloor y in
  let r := y - inject_Z f in
  if Py.lt r (1 # 2) then f
  else if Py.gt r (1 # 2) then (f + 1)%Z
  else if Z.even f then f else (f + 1)%Z.

(** The text [f"{x:.2f}"]: a sign and a count of hundredths, as in
    ["-12.34"]; the digits are those of the magnitude rounded to two
    decimals, ties to even. *)
Record Fixed2 : Type := mkFixed2 {
  is_negative : bool;
  hundredths : Z
}.

Definition format_2f (x : Q) : Fixed2 :=
  mkFixed2 (Py.lt x 0) (round_half_even (Qabs x * 100)).

Inductive ByteUnit : Type := B | KB | MB | GB | TB | PB.

(** The text returned is ["<value:.2f> <unit>"]. *)
Fixpoint format_bytes_from (units : list ByteUnit) (bytes_val : Q) : Fixed2 * ByteUnit :=
  match units with
  | [] => (format_2f bytes_val, PB)
  | unit :: rest =>
      if Py.lt bytes_val 1024 then (format_2f bytes_val, unit)
      else format_bytes_from rest (bytes_val / 1024)
  end.

Definition format_bytes (bytes_val : Q) : Fixed2 * ByteUnit :=
  format_bytes_from [B; KB; MB; GB; TB] bytes_val.

(** Number of bytes in one unit. *)
Definition bytes_per_unit (unit : ByteUnit) : Q :=
  match unit with
  | B => 1
  | KB => 1024
  | MB => 1024 * 1024
  | GB => 1024 * 1024 * 1024
  | TB => 1024 * 1024 * 1024 * 1024
  | PB => 1024 * 1024 * 1024 * 1024 * 1024
  end.

(** *** [update_bars_color] (lines 945-953): the [progress_color] set. *)
Definition update_bars_color (value : Q) : String.string :=
  if Py.gt value 90 then "#DC143C"%string
  else if Py.gt value 75 then "#FFA500"%string
  else "#4CAF50"%string.

(** *** [show_alert] (lines 999-1012): the [issues] list, one entry per
    metric above 90, each standing for ["<label>: <value>%"]. *)
Inductive Metric : Type := CPU | RAM | Disk.

Definition show_alert (cpu ram disk : Q) : list (Metric * Q) :=
  (if Py.gt cpu 90 then [(CPU, cpu)] else []) ++
  (if Py.gt ram 90 then [(RAM, ram)] else []) ++
  (if Py.gt disk 90 then [(Disk, disk)] else []).

(** *** Mood tables (lines 26-37, 766-807) *)

(** The string [determine_mood] returns for each mood. *)
Definition mood_key (m : Mood) : String.string :=
  match m with
  | happy => "happy"%string
  | content => "content"%string
  | worried => "worried"%string
  | critical => "critical"%string
  end.

(** A dict with string keys, as the list of its items. *)
Definition dict (V : Type) : Type := list (String.string * V).

(** [d.get(k, default)]. *)
Definition dict_get {V : Type} (d : dict V) (k : String.string) (default : V) : V :=
  match find (fun kv => String.eqb (fst kv) k) d with
  | Some kv => snd kv
  | None => default
  end.

(** [d[k]]; [None] stands for [KeyError]. *)
Definition dict_item {V : Type} (d : dict V) (k : String.string) : option V :=
  match find (fun kv => String.eqb (fst kv) k) d with
  | Some kv => Some (snd kv)
  | None => None
  end.

Definition MOOD_COLORS : dict String.string :=
  [("happy", "#4CAF50"); ("content", "#2196F3");
   ("worried", "#FF9800"); ("critical", "#F44336")]%string.

Definition MOOD_EMOJIS : dict String.string :=
  [("happy", "😊"); ("content", "😌"); ("worried", "😰"); ("critical", "😵")]%string.

Definition get_mood_emoji (mood : String.string) : String.string :=
  dict_get MOOD_EMOJIS mood "🙂"%string.

Definition get_mood_color (mood : String.string) : String.string :=
  dict_get MOOD_COLORS mood "#2196F3"%string.

Definition messages : dict (list String.string) :=
  [("happy",
    ["Everything is perfect! I'm so happy! ✨";
     "All systems running beautifully! 🌟";
     "I love it when things are this smooth! 💖";
     "This is wonderful! Keep it up! 🎉";
     "Feeling great! Everything's optimal! 🚀"]);
   ("content",
    ["Everything looks good! Cruising along~";
     "All systems nominal! Doing great! ✓";
     "Nice and steady! No worries here!";
     "Running smoothly! All is well!";
     "Everything's under control! 👍"]);
   ("worried",
    ["Umm... I'm getting a bit worried here... 😰";
     "Things are getting heavy... Please check! ⚠️";
     "I'm feeling the pressure... 💦";
     "This is making me nervous... 😟";
     "Resources are running high... help!"]);
   ("critical",
    ["🚨 HELP! I CAN'T BREATHE! 🚨";
     "CRITICAL! Everything is too much! 😵";
     "I'M DYING! Please help me! 💀";
     "EMERGENCY! I need help NOW! ⚠️";
     "SYSTEM OVERLOAD! Do something! 🔥"])]%string.

(** [get_message]: the list handed to [random.choice], which raises on an
    empty list; [None] stands for the [KeyError] of [messages[mood]]. *)
Definition get_message (mood : String.string) : option (list String.string) :=
  dict_item messages mood.

(** *** [animate_pet] (lines 672-685): the blink bookkeeping. *)
Record Anim : Type := mkAnim {
  animation_frame : Z;
  blink_counter : Z;
  is_blinking : bool
}.

(** The values set by [__init__] (lines 49-51). *)
Definition anim_init : Anim := mkAnim 0 0 false.

Definition animate_pet (a : Anim) : Anim :=
  let frame := (animation_frame a + 1)%Z in
  let counter := (blink_counter a + 1)%Z in
  if (100 <? counter)%Z then mkAnim frame 0 true
  else if (5 <? counter)%Z then mkAnim frame counter false
  else mkAnim frame counter (is_blinking a).

(** [n] successive calls. *)
Fixpoint animate_n (n : nat) (a : Anim) : Anim :=
  match n with
  | O => a
  | S k => animate_pet (animate_n k a)
  end.

(** *** [draw_line_graph] (lines 737-751) and [update_graph] (687-735) *)

(** The loop over [enumerate(data)]: the flat list [x0, y0, x1, y1, ...]. *)
Fixpoint line_points (data : list Q) (i data_len : Z) (margin graph_width graph_height : Q)
  : Outcome (list Q) :=
  match data with
  | [] => Ok []
  | value :: rest =>
      r <-? py_div (inject_Z i) (inject_Z (data_len - 1)) ;;
      let x := margin + r * graph_width in
      let y := margin + graph_height - (value / 100 * graph_height) in
      points <-? line_points rest (i + 1) data_len margin graph_width graph_height ;;
      Ok (x :: y :: points)
  end.

(** The [create_line] calls issued: none or one, with its colour. *)
Definition draw_line_graph (data : list Q) (color : String.string)
                           (margin graph_width graph_height : Q)
  : Outcome (list (String.string * list Q)) :=
  if (Z.of_nat (length data) <? 2)%Z then Ok []
  else
    points <-? line_points data 0 (Z.of_nat (length data)) margin graph_width graph_height ;;
    if (4 <=? length points)%nat then Ok [(color, points)] else Ok [].



(** Severity rank of a mood, to compare classifications. *)
Definition severity (m : Mood) : nat :=
  match m with
  | happy => 0
  | content => 1
  | worried => 2
  | critical => 3
  end.

(** ** Observations on sessions *)

(** The [n] most recent items of a list that has the oldest first. *)
Definition newest {A : Type} (n : nat) (l : list A) : list A :=
  skipn (length l - n) l.


(** The readings carried by the UI updates of a trace, one per completed
    tick, in the order of the ticks. *)
Definition cpu_samples (out : list Event) : list Q :=
  flat_map (fun e => match e with after_update_ui cpu _ _ _ _ => [cpu] | _ => [] end) out.

Definition ram_samples (out : list Event) : list Q :=
  flat_map (fun e => match e with after_update_ui _ ram _ _ _ => [ram] | _ => [] end) out.

Definition disk_samples (out : list Event) : list Q :=
  flat_map (fun e => match e with after_update_ui _ _ disk _ _ => [disk] | _ => [] end) out.

(** The network rates carried by the UI updates, in KB/s. *)
Definition net_speeds (out : list Event) : list Q :=
  flat_map (fun e => match e with after_update_ui _ _ _ speed _ => [speed] | _ => [] end) out.

(** The waits issued in a trace. *)
Definition sleeps (out : list Event) : list Z :=
  flat_map (fun e => match e with time_sleep z => [z] | _ => [] end) out.

(** The iteration finds a later clock than the one kept from the last
    completed tick, and byte counters that have not gone down since. *)
Definition net_advances (s : App) (env : Env) : Prop :=
  match net_io_counters env with
  | Some io =>
      last_net_time s < time_at_966 env /\
      (bytes_sent (last_net_io s) <= bytes_sent io)%Z /\
      (bytes_recv (last_net_io s) <= bytes_recv io)%Z
  | None => True
  end.

(** The same at every iteration of a run. *)
Fixpoint net_advances_throughout (start_time : Q) (envs : list Env) (s : App) : Prop :=
  match envs with
  | [] => True
  | env :: rest =>
      net_advances s env /\
      net_advances_throughout start_time rest (fst (iteration start_time env s))
  end.

(** * Properties *)

(** ** Comparisons *)

Lemma gt_true_iff a b : Py.gt a b = true <-> b < a.
Proof.
  unfold Py.gt. rewrite negb_true_iff.
  split; intro H.
  - apply Qnot_le_lt. intro Hle. apply Qle_bool_iff in Hle. congruence.
  - destruct (Qle_bool a b) eqn:E; [|reflexivity].
    apply Qle_bool_iff in E. exfalso. exact (Qlt_not_le _ _ H E).
Qed.

Lemma gt_false_iff a b : Py.gt a b = false <-> a <= b.
Proof.
  unfold Py.gt. rewrite negb_false_iff. apply Qle_bool_iff.
Qed.

Lemma lt_true_iff a b : Py.lt a b = true <-> a < b.
Proof. unfold Py.lt. apply (gt_true_iff b a). Qed.

Lemma lt_false_iff a b : Py.lt a b = false <-> b <= a.
Proof. unfold Py.lt. apply (gt_false_iff b a). Qed.

Lemma any_gt_true a b c t :
  Py.gt a t || Py.gt b t || Py.gt c t = true <-> (t < a \/ t < b \/ t < c).
Proof.
  rewrite !orb_true_iff, !gt_true_iff. tauto.
Qed.

Lemma any_gt_false a b c t :
  Py.gt a t || Py.gt b t || Py.gt c t = false <-> (a <= t /\ b <= t /\ c <= t).
Proof.
  rewrite !orb_false_iff, !gt_false_iff. tauto.
Qed.

Lemma all_lt_true a b c x y z :
  Py.lt a x && Py.lt b y && Py.lt c z = true <-> (a < x /\ b < y /\ c < z).
Proof.
  rewrite !andb_true_iff, !lt_true_iff. tauto.
Qed.

Lemma all_lt_false a b c x y z :
  Py.lt a x && Py.lt b y && Py.lt c z = false <-> ~ (a < x /\ b < y /\ c < z).
Proof.
  rewrite <- all_lt_true. destruct (Py.lt a x && Py.lt b y && Py.lt c z); split;
    congruence.
Qed.

(** ** The mood classifier *)

(** C1. [determine_mood] is an ordered decision list with strict
    comparisons: Critical when some metric is strictly above the critical
    threshold; otherwise Worried when some metric is strictly above 75;
    otherwise Happy when cpu < 30, ram < 50 and disk < 70; otherwise
    Content.  A metric equal to 75, with nothing above 75 or above the
    threshold, is not Worried; (75, 10, 10, 90) is Content and
    (80, 10, 10, 90) is Worried. *)
Theorem determine_mood_decision_list (cpu ram disk threshold : Q) :
  ((threshold < cpu \/ threshold < ram \/ threshold < disk) ->
     determine_mood cpu ram disk threshold = critical) /\
  (~ (threshold < cpu \/ threshold < ram \/ threshold < disk) ->
     (75 < cpu \/ 75 < ram \/ 75 < disk) ->
     determine_mood cpu ram disk threshold = worried) /\
  (~ (threshold < cpu \/ threshold < ram \/ threshold < disk) ->
     ~ (75 < cpu \/ 75 < ram \/ 75 < disk) ->
     (cpu < 30 /\ ram < 50 /\ disk < 70) ->
     determine_mood cpu ram disk threshold = happy) /\
  (~ (threshold < cpu \/ threshold < ram \/ threshold < disk) ->
     ~ (75 < cpu \/ 75 < ram \/ 75 < disk) ->
     ~ (cpu < 30 /\ ram < 50 /\ disk < 70) ->
     determine_mood cpu ram disk threshold = content) /\
  ((cpu == 75 \/ ram == 75 \/ disk == 75) ->
     cpu <= 75 -> ram <= 75 -> disk <= 75 ->
     cpu <= threshold -> ram <= threshold -> disk <= threshold ->
     determine_mood cpu ram disk threshold <> worried) /\
  determine_mood 75 10 10 90 = content /\
  determine_mood 80 10 10 90 = worried.
Proof.
  unfold determine_mood.
  destruct (Py.gt cpu threshold || Py.gt ram threshold || Py.gt disk threshold) eqn:Hc;
  destruct (Py.gt cpu 75 || Py.gt ram 75 || Py.gt disk 75) eqn:Hw;
  destruct (Py.lt cpu 30 && Py.lt ram 50 && Py.lt disk 70) eqn:Hh;
  repeat match goal with
  | H : _ || _ || _ = true |- _ => apply any_gt_true in H
  | H : _ || _ || _ = false |- _ => apply any_gt_false in H
  | H : _ && _ && _ = true |- _ => apply all_lt_true in H
  | H : _ && _ && _ = false |- _ => apply all_lt_false in H
  end;
  repeat split; try reflexivity; try discriminate; intros;
  try tauto;
  try (exfalso;
       repeat match goal with
       | H : _ \/ _ |- _ => destruct H
       | H : _ /\ _ |- _ => destruct H
       end;
       match goal with
       | H1 : ?a < ?b, H2 : ?b <= ?a |- _ => exact (Qlt_not_le _ _ H1 H2)
       end).
Qed.

Lemma determine_mood_decision_list_witness :
  determine_mood 95 10 10 90 = critical /\
  determine_mood 80 10 10 90 = worried /\
  determine_mood 20 40 60 90 = happy /\
  determine_mood 40 40 40 90 = content /\
  determine_mood 75 10 10 90 <> worried.
Proof.
  split; [|split; [|split; [|split]]].
  - apply (proj1 (determine_mood_decision_list 95 10 10 90)).
    left. reflexivity.
  - apply (proj1 (proj2 (determine_mood_decision_list 80 10 10 90))).
    + intros [H|[H|H]]; discriminate H.
    + left. reflexivity.
  - apply (proj1 (proj2 (proj2 (determine_mood_decision_list 20 40 60 90)))).
    + intros [H|[H|H]]; discriminate H.
    + intros [H|[H|H]]; discriminate H.
    + repeat split.
  - apply (proj1 (proj2 (proj2 (proj2 (determine_mood_decision_list 40 40 40 90))))).
    + intros [H|[H|H]]; discriminate H.
    + intros [H|[H|H]]; discriminate H.
    + intros [H _]. discriminate H.
  - apply (proj1 (proj2 (proj2 (proj2 (proj2 (determine_mood_decision_list 75 10 10 90)))))).
    + left. reflexivity.
    + discriminate.
    + discriminate.
    + discriminate.
    + discriminate.
    + discriminate.
    + discriminate.
Defined.

(** ** Running one iteration symbolically *)

Ltac proj_simpl :=
  cbv [alert_shown cpu_history ram_history disk_history net_history last_net_io
       last_net_time stats happy_time worried_time critical_time total_time
       max_cpu max_ram max_disk set_alert_shown set_cpu_history set_ram_history
       set_disk_history set_net_history set_last_net_io set_last_net_time set_stats
       set_happy_time set_worried_time set_critical_time set_total_time
       set_max_cpu set_max_ram set_max_disk Mood_eqb andb negb orb app] in *.

Ltac run_body :=
  cbv [try_body alert_gate bind ret get modify modify_stats emit lift read];
  proj_simpl.

(** A psutil read that raises aborts the [try] block before any write. *)
Lemma try_body_read_fails start env s :
  metric_read_fails env = true ->
  try_body start env s = (Raised MetricError, s, []).
Proof.
  unfold metric_read_fails. intros H. run_body.
  destruct (cpu_percent env); [|reflexivity].
  destruct (virtual_memory_percent env); [|reflexivity].
  destruct (disk_usage_percent env); [|reflexivity].
  destruct (net_io_counters env); [discriminate|reflexivity].
Qed.

(** So does a division by zero in the network rate. *)
Lemma try_body_rate_fails start env s cpu ram disk io e :
  cpu_percent env = Some cpu ->
  virtual_memory_percent env = Some ram ->
  disk_usage_percent env = Some disk ->
  net_io_counters env = Some io ->
  net_speed (last_net_io s) (last_net_time s) io (time_at_966 env) = Raised e ->
  try_body start env s = (Raised e, s, []).
Proof.
  intros Hc Hr Hd Hn Hs. run_body. rewrite Hc, Hr, Hd, Hn. run_body.
  rewrite Hs. reflexivity.
Qed.

(** The effect of a [try] block that runs to its end. *)
Lemma try_body_ok start env s cpu ram disk io speed :
  cpu_percent env = Some cpu ->
  virtual_memory_percent env = Some ram ->
  disk_usage_percent env = Some disk ->
  net_io_counters env = Some io ->
  net_speed (last_net_io s) (last_net_time s) io (time_at_966 env) = Ok speed ->
  exists s' out,
    try_body start env s = (Ok tt, s', out) /\
    cpu_history s' = Deque.append maxlen (cpu_history s) cpu /\
    ram_history s' = Deque.append maxlen (ram_history s) ram /\
    disk_history s' = Deque.append maxlen (disk_history s) disk /\
    net_history s' = Deque.append maxlen (net_history s) (net_sample speed) /\
    last_net_io s' = io /\
    last_net_time s' = time_at_966 env /\
    total_time (stats s') = time_at_980 env - start /\
    max_cpu (stats s') = Py.max (max_cpu (stats s)) cpu /\
    max_ram (stats s') = Py.max (max_ram (stats s)) ram /\
    max_disk (stats s') = Py.max (max_disk (stats s)) disk /\
    (let new_mood := determine_mood cpu ram disk (cpu_thresh_slider env) in
     happy_time (stats s') =
       (happy_time (stats s) + if Mood_eqb new_mood happy then poll_interval else 0)%Z /\
     worried_time (stats s') =
       (worried_time (stats s) + if Mood_eqb new_mood worried then poll_interval else 0)%Z /\
     critical_time (stats s') =
       (critical_time (stats s) + if Mood_eqb new_mood critical then poll_interval else 0)%Z /\
     alert_shown s' =
       (if Mood_eqb new_mood critical then alert_shown s || alert_enabled env else false) /\
     out = after_update_ui cpu ram disk speed new_mood ::
           (if Mood_eqb new_mood critical && negb (alert_shown s) && alert_enabled env
            then [after_show_alert cpu ram disk] else []) ++
           [time_sleep poll_interval]).
Proof.
  intros Hc Hr Hd Hn Hs.
  destruct s as [shown ch rh dh nh lio ltime [ht wt ct tot mc mr md]].
  proj_simpl. run_body. rewrite Hc, Hr, Hd, Hn. run_body. rewrite Hs.
  destruct (determine_mood cpu ram disk (cpu_thresh_slider env)) eqn:Hm;
    destruct shown; destruct (alert_enabled env) eqn:He; run_body;
    (eexists; eexists; split; [reflexivity|]);
    proj_simpl; rewrite ?Z.add_0_r; repeat split; reflexivity.
Qed.

(** Every iteration either skips (state untouched, one line printed) or
    completes with all reads available. *)
Lemma iteration_cases start env s :
  (exists e, try_body start env s = (Raised e, s, []) /\
             iteration start env s = (s, [print_error e])) \/
  (exists cpu ram disk io speed s' out,
     cpu_percent env = Some cpu /\
     virtual_memory_percent env = Some ram /\
     disk_usage_percent env = Some disk /\
     net_io_counters env = Some io /\
     net_speed (last_net_io s) (last_net_time s) io (time_at_966 env) = Ok speed /\
     try_body start env s = (Ok tt, s', out) /\
     iteration start env s = (s', out)).
Proof.
  destruct (metric_read_fails env) eqn:Hf.
  - left. exists MetricError. unfold iteration.
    rewrite (try_body_read_fails start env s Hf). split; reflexivity.
  - unfold metric_read_fails in Hf.
    destruct (cpu_percent env) as [cpu|] eqn:Hc; [|discriminate].
    destruct (virtual_memory_percent env) as [ram|] eqn:Hr; [|discriminate].
    destruct (disk_usage_percent env) as [disk|] eqn:Hd; [|discriminate].
    destruct (net_io_counters env) as [io|] eqn:Hn; [|discriminate].
    destruct (net_speed (last_net_io s) (last_net_time s) io (time_at_966 env))
      as [speed|e] eqn:Hs.
    + right.
      destruct (try_body_ok start env s cpu ram disk io speed Hc Hr Hd Hn Hs)
        as (s' & out & Heq & _).
      exists cpu, ram, disk, io, speed, s', out.
      unfold iteration. rewrite Heq. repeat split; assumption || reflexivity.
    + left. exists e. unfold iteration.
      rewrite (try_body_rate_fails start env s cpu ram disk io e Hc Hr Hd Hn Hs).
      split; reflexivity.
Qed.

(** Induction over the iterations of a session. *)
Lemma reachable_invariant (P : App -> Prop) :
  (forall net0 t0, P (init net0 t0)) ->
  (forall start env s, P s -> P (fst (iteration start env s))) ->
  forall s, reachable s -> P s.
Proof.
  intros Hinit Hstep s (net0 & t0 & start & envs & ->).
  generalize (Hinit net0 t0). generalize (init net0 t0).
  induction envs as [|env rest IH]; intros s0 Hs0; [exact Hs0|].
  cbn [monitor_system].
  specialize (Hstep start env s0 Hs0).
  destruct (iteration start env s0) as [s1 out1]. cbn [fst] in Hstep.
  specialize (IH s1 Hstep).
  destruct (monitor_system start rest s1) as [s2 out2]. exact IH.
Qed.

(** ** The bounded deque *)

Section DequeFacts.
Context {A : Type}.
Variable n : nat.

Lemma append_below (d : list A) (x : A) :
  (length d < n)%nat -> Deque.append n d x = d ++ [x].
Proof.
  intros H. unfold Deque.append.
  rewrite length_app. cbn [length].
  destruct (Nat.ltb_spec n (length d + 1)); [lia|reflexivity].
Qed.

Lemma append_full (d : list A) (x : A) :
  (length d = n)%nat -> Deque.append n d x = tl (d ++ [x]).
Proof.
  intros H. unfold Deque.append.
  rewrite length_app. cbn [length].
  destruct (Nat.ltb_spec n (length d + 1)); [reflexivity|lia].
Qed.

Lemma append_length (d : list A) (x : A) :
  (length d <= n)%nat ->
  length (Deque.append n d x) = Nat.min (S (length d)) n.
Proof.
  intros H. unfold Deque.append.
  rewrite length_app. cbn [length].
  destruct (Nat.ltb_spec n (length d + 1)).
  - destruct d as [|a d]; cbn [app tl length] in *; [lia|].
    rewrite length_app. cbn [length]. lia.
  - rewrite length_app. cbn [length]. lia.
Qed.

Lemma skipn_succ_tl (k : nat) (l : list A) :
  skipn (S k) l = tl (skipn k l).
Proof.
  revert l. induction k as [|k IH]; intros [|a l]; try reflexivity.
  cbn [skipn] in *. apply IH.
Qed.

(** After any sequence of appends the deque holds the last [n] items
    appended, oldest first. *)
Lemma pushes_skipn (xs : list A) :
  Deque.pushes n xs = skipn (length xs - n) xs.
Proof.
  induction xs as [|x xs IH] using rev_ind; [reflexivity|].
  unfold Deque.pushes in *. rewrite fold_left_app. cbn [fold_left].
  rewrite IH, length_app. cbn [length].
  destruct (Nat.le_gt_cases n (length xs)) as [Hge|Hlt].
  - rewrite append_full by (rewrite length_skipn; lia).
    replace (length xs + 1 - n)%nat with (S (length xs - n)) by lia.
    rewrite skipn_succ_tl, skipn_app.
    replace (length xs - n - length xs)%nat with 0%nat by lia.
    reflexivity.
  - replace (length xs - n)%nat with 0%nat by lia.
    replace (length xs + 1 - n)%nat with 0%nat by lia.
    cbn [skipn]. apply append_below. exact Hlt.
Qed.

End DequeFacts.

Lemma append_nonempty {A : Type} (d : list A) (x : A) :
  Deque.append maxlen d x <> [].
Proof.
  unfold Deque.append, maxlen.
  destruct (Nat.ltb_spec 60 (length (d ++ [x]))) as [H|H].
  - destruct d as [|a [|b d]]; cbn in *; try lia; discriminate.
  - destruct d; discriminate.
Qed.

(** The four histories stay within the capacity and keep equal lengths. *)
Lemma histories_invariant (s : App) :
  reachable s ->
  (length (cpu_history s) <= maxlen)%nat /\
  length (ram_history s) = length (cpu_history s) /\
  length (disk_history s) = length (cpu_history s) /\
  length (net_history s) = length (cpu_history s).
Proof.
  revert s. apply reachable_invariant.
  - intros. cbn. repeat split; unfold maxlen; lia.
  - intros start env s (Hle & Hr & Hd & Hn).
    destruct (iteration_cases start env s)
      as [(e & _ & ->)|(cpu & ram & disk & io & speed & s' & out &
                        Hc & Hrm & Hdk & Hio & Hs & Hbody & ->)];
      cbn [fst]; [repeat split; assumption|].
    destruct (try_body_ok start env s cpu ram disk io speed Hc Hrm Hdk Hio Hs)
      as (s2 & out2 & Heq & Hch & Hrh & Hdh & Hnh & _).
    rewrite Hbody in Heq. injection Heq as <- <-.
    rewrite Hch, Hrh, Hdh, Hnh.
    rewrite !append_length by lia.
    rewrite Hr, Hd, Hn. repeat split; lia.
Qed.

(** ** The alert gate *)

Lemma alert_gate_run cpu ram disk m enabled s :
  alert_gate cpu ram disk m enabled s =
    (Ok tt,
     set_alert_shown (if Mood_eqb m critical then alert_shown s || enabled else false) s,
     if Mood_eqb m critical && negb (alert_shown s) && enabled
     then [after_show_alert cpu ram disk] else []).
Proof.
  destruct s as [shown ch rh dh nh lio ltime st].
  destruct m, shown, enabled; reflexivity.
Qed.

Lemma gate_fires_cons m enabled rest s :
  gate_fires ((m, enabled) :: rest) s =
    (if Mood_eqb m critical && negb (alert_shown s) && enabled then 1 else 0)%nat ::
    gate_fires rest
      (set_alert_shown (if Mood_eqb m critical then alert_shown s || enabled else false) s).
Proof.
  cbn [gate_fires]. rewrite alert_gate_run.
  destruct (Mood_eqb m critical && negb (alert_shown s) && enabled); reflexivity.
Qed.

Lemma alert_shown_set b s : alert_shown (set_alert_shown b s) = b.
Proof. reflexivity. Qed.

(** With alerts enabled throughout, tick [i] issues an alert exactly when
    it is Critical and the gate was armed on entry: at the first tick if
    [alert_shown] was false, later if the previous tick was not Critical. *)
Lemma gate_fires_enabled (moods : list Mood) :
  forall (s : App) (i : nat),
    nth i (gate_fires (map (fun m => (m, true)) moods) s) 0%nat = 1%nat <->
    nth_error moods i = Some critical /\
    match i with
    | O => alert_shown s = false
    | S j => exists m, nth_error moods j = Some m /\ m <> critical
    end.
Proof.
  induction moods as [|m rest IH]; intros s i.
  - destruct i; cbn; split; try discriminate; intros [H _]; discriminate.
  - cbn [map]. rewrite gate_fires_cons. destruct i as [|j].
    + cbn [nth nth_error]. rewrite andb_true_r.
      destruct m, (alert_shown s); cbn; split;
        try discriminate; try (intros [H1 H2]; discriminate); auto.
    + cbn [nth nth_error]. rewrite IH, alert_shown_set.
      apply and_iff_compat_l.
      destruct j as [|k]; [|reflexivity].
      cbn [nth_error]. rewrite orb_true_r. split.
      * intros H. exists m. split; [reflexivity|].
        intros ->. discriminate.
      * intros (m' & [= <-] & Hne). destruct m; try reflexivity. congruence.
Qed.

Lemma gate_fires_le_1 (ticks : list (Mood * bool)) :
  forall s, Forall (fun k => (k <= 1)%nat) (gate_fires ticks s).
Proof.
  induction ticks as [|[m en] rest IH]; intros s; [constructor|].
  rewrite gate_fires_cons. constructor; [|apply IH].
  destruct (Mood_eqb m critical && negb (alert_shown s) && en); lia.
Qed.

Lemma gate_fires_length (ticks : list (Mood * bool)) :
  forall s, length (gate_fires ticks s) = length ticks.
Proof.
  induction ticks as [|[m en] rest IH]; intros s; [reflexivity|].
  rewrite gate_fires_cons. cbn [length]. f_equal. apply IH.
Qed.

(** C2. With alerts enabled, the gate issues exactly one alert per maximal
    run of Critical ticks, at the first tick of the run, and never more
    than one per tick.  For [Critical, Critical, Critical, Content,
    Critical] it fires at the first and fifth ticks only, both for the
    gate fed with moods and for the monitoring loop fed with readings
    that classify so. *)
Theorem alert_once_per_critical_run :
  (forall (moods : list Mood) (s : App) (i : nat),
     alert_shown s = false ->
     (nth i (gate_fires (map (fun m => (m, true)) moods) s) 0%nat = 1%nat <->
      nth_error moods i = Some critical /\
      (i = 0%nat \/ exists m, nth_error moods (i - 1) = Some m /\ m <> critical))) /\
  (forall (ticks : list (Mood * bool)) (s : App),
     length (gate_fires ticks s) = length ticks /\
     Forall (fun k => (k <= 1)%nat) (gate_fires ticks s)) /\
  (forall net0 t0,
     gate_fires (map (fun m => (m, true)) [critical; critical; critical; content; critical])
                (init net0 t0)
     = [1; 0; 0; 0; 1]%nat) /\
  map alerts
      (iteration_traces 0
         [sample_env 95 10 10 (mkNetIO 0 0) 3 90 true;
          sample_env 95 10 10 (mkNetIO 0 0) 6 90 true;
          sample_env 95 10 10 (mkNetIO 0 0) 9 90 true;
          sample_env 40 10 10 (mkNetIO 0 0) 12 90 true;
          sample_env 95 10 10 (mkNetIO 0 0) 15 90 true]
         (init (mkNetIO 0 0) 0))
  = [1; 0; 0; 0; 1]%nat.
Proof.
  split; [|split; [|split]].
  - intros moods s i Hs. rewrite gate_fires_enabled.
    apply and_iff_compat_l. destruct i as [|j].
    + split; [intros _; left; reflexivity|intros _; exact Hs].
    + cbn [Nat.sub]. rewrite Nat.sub_0_r. split.
      * intros H. right. exact H.
      * intros [H|H]; [discriminate|exact H].
  - intros ticks s. split; [apply gate_fires_length|apply gate_fires_le_1].
  - intros net0 t0. reflexivity.
  - vm_compute. reflexivity.
Qed.

Lemma alert_once_per_critical_run_witness :
  nth 4 (gate_fires (map (fun m => (m, true))
                       [critical; critical; critical; content; critical])
                    (init (mkNetIO 0 0) 0)) 0%nat = 1%nat.
Proof.
  apply (proj1 alert_once_per_critical_run
           [critical; critical; critical; content; critical]
           (init (mkNetIO 0 0) 0) 4%nat).
  - reflexivity.
  - split; [reflexivity|]. right. exists content. split; [reflexivity|discriminate].
Defined.

Lemma gate_fires_shown (flags : list bool) :
  forall s, alert_shown s = true ->
    gate_fires (map (pair critical) flags) s = repeat 0%nat (length flags).
Proof.
  induction flags as [|en rest IH]; intros s Hs; [reflexivity|].
  cbn [map length repeat]. rewrite gate_fires_cons, Hs. cbn.
  f_equal. apply IH. reflexivity.
Qed.

(** The second tick of one Critical run fires when the checkbox was off
    at the first tick and is on at the second. *)
Lemma reenabled_gate_fires_mid_run :
  gate_fires [(critical, false); (critical, true)] (init (mkNetIO 0 0) 0)
  = [0; 1]%nat.
Proof. reflexivity. Qed.

(** C3 (amended). A disabled checkbox suppresses firing and, on a Critical
    tick, leaves [alert_shown] as it is.  So within one Critical run
    entered with the gate armed, the alert fires at the first tick whose
    checkbox is on, and at no other tick of the run; once it has fired,
    switching the checkbox off and on again within the run fires
    nothing. *)
Theorem disabled_gate_keeps_state :
  (forall (cpu ram disk : Q) (m : Mood) (s : App),
     snd (alert_gate cpu ram disk m false s) = [] /\
     alert_gate cpu ram disk critical false s = (Ok tt, s, [])) /\
  (forall (s : App) (n : nat) (flags : list bool),
     alert_shown s = false ->
     gate_fires (map (pair critical) (repeat false n ++ true :: flags)) s
     = (repeat 0 n ++ 1 :: repeat 0 (length flags))%nat) /\
  (forall (s : App) (flags : list bool),
     alert_shown s = true ->
     gate_fires (map (pair critical) flags) s = repeat 0%nat (length flags)).
Proof.
  split; [|split].
  - intros cpu ram disk m s. rewrite !alert_gate_run. split.
    + cbn [snd]. rewrite andb_false_r. reflexivity.
    + destruct s as [shown ch rh dh nh lio ltime st].
      destruct shown; reflexivity.
  - intros s n flags. revert s.
    induction n as [|n IH]; intros s Hs.
    + cbn [repeat app map]. rewrite gate_fires_cons, Hs. cbn.
      f_equal. apply gate_fires_shown. reflexivity.
    + cbn [repeat app map]. rewrite gate_fires_cons, Hs. cbn.
      f_equal. apply IH. reflexivity.
  - intros s flags Hs. apply gate_fires_shown. exact Hs.
Qed.

Lemma disabled_gate_keeps_state_witness :
  gate_fires (map (pair critical) (repeat false 2 ++ true :: [false; true]))
             (init (mkNetIO 0 0) 0)
  = [0; 0; 1; 0; 0]%nat.
Proof.
  apply (proj1 (proj2 disabled_gate_keeps_state) (init (mkNetIO 0 0) 0) 2%nat [false; true]).
  reflexivity.
Defined.

(** ** Time in state *)

Lemma ticks_with_app m out1 out2 :
  ticks_with m (out1 ++ out2) = (ticks_with m out1 + ticks_with m out2)%Z.
Proof.
  unfold ticks_with. rewrite filter_app, length_app. lia.
Qed.

Lemma ticks_with_tick m cpu ram disk speed mood (b : bool) (z : Z) :
  ticks_with m (after_update_ui cpu ram disk speed mood ::
                (if b then [after_show_alert cpu ram disk] else []) ++ [time_sleep z])
  = if Mood_eqb mood m then 1%Z else 0%Z.
Proof.
  unfold ticks_with. cbn [filter is_update_with].
  destruct (Mood_eqb mood m), b; reflexivity.
Qed.

(** Each counter grows by the poll interval per completed tick of its mood. *)
Lemma counters_follow_trace (start : Q) (envs : list Env) :
  forall s,
    let r := monitor_system start envs s in
    happy_time (stats (fst r)) =
      (happy_time (stats s) + poll_interval * ticks_with happy (snd r))%Z /\
    worried_time (stats (fst r)) =
      (worried_time (stats s) + poll_interval * ticks_with worried (snd r))%Z /\
    critical_time (stats (fst r)) =
      (critical_time (stats s) + poll_interval * ticks_with critical (snd r))%Z.
Proof.
  induction envs as [|env rest IH]; intros s.
  - cbn. repeat split; lia.
  - cbn [monitor_system].
    destruct (iteration_cases start env s)
      as [(e & _ & Hi)|(cpu & ram & disk & io & speed & s' & out &
                        Hc & Hrm & Hdk & Hio & Hs & Hbody & Hi)];
      rewrite Hi; specialize (IH (fst (iteration start env s)));
      rewrite Hi in IH; cbn [fst] in IH; cbv zeta in IH |- *;
      destruct (monitor_system start rest _) as [s2 out2];
      cbn [fst snd] in *; rewrite !ticks_with_app.
    + destruct IH as (Hh & Hw & Hcr). rewrite Hh, Hw, Hcr.
      cbn. repeat split; lia.
    + destruct (try_body_ok start env s cpu ram disk io speed Hc Hrm Hdk Hio Hs)
        as (s3 & out3 & Heq & _ & _ & _ & _ & _ & _ & _ & _ & _ & _ & Hrest).
      rewrite Hbody in Heq. injection Heq as <- <-.
      cbv zeta in Hrest. destruct Hrest as (Hh' & Hw' & Hcr' & _ & ->).
      rewrite !ticks_with_tick.
      destruct IH as (Hh & Hw & Hcr). rewrite Hh, Hw, Hcr, Hh', Hw', Hcr'.
      unfold poll_interval.
      destruct (determine_mood cpu ram disk (cpu_thresh_slider env));
        cbn [Mood_eqb]; repeat split; lia.
Qed.

(** After one completed Content tick the counters sum to 0 while the
    recorded session time is 1 s; after one completed Happy tick they sum
    to 2 s while the recorded session time is 1 s.  No tick is skipped in
    either run. *)
Lemma counters_sum_differs_from_elapsed :
  (let s := fst (monitor_system 0 [sample_env 40 40 40 (mkNetIO 0 0) 1 90 true]
                                (init (mkNetIO 0 0) 0)) in
   (happy_time (stats s) + worried_time (stats s) + critical_time (stats s) = 0)%Z /\
   total_time (stats s) == 1) /\
  (let s := fst (monitor_system 0 [sample_env 20 40 60 (mkNetIO 0 0) 1 90 true]
                                (init (mkNetIO 0 0) 0)) in
   (happy_time (stats s) + worried_time (stats s) + critical_time (stats s) = 2)%Z /\
   total_time (stats s) == 1).
Proof. vm_compute. repeat split. Qed.

(** C4 (amended). In every session each of the three time-in-state
    counters the code keeps (happy, worried, critical) equals the poll
    interval of 2 s times the number of completed ticks classified with
    that mood; there is no counter for Content.  Their sum is therefore
    2 s times the number of completed ticks that were not Content,
    whatever the clock showed, while [total_time] is the clock reading of
    the last completed tick minus the start time of the loop. *)
Theorem time_in_state_counts_ticks (start : Q) (envs : list Env) (net0 : NetIO) (t0 : Q) :
  happy_time (stats (fst (monitor_system start envs (init net0 t0)))) =
    (2 * ticks_with happy (snd (monitor_system start envs (init net0 t0))))%Z /\
  worried_time (stats (fst (monitor_system start envs (init net0 t0)))) =
    (2 * ticks_with worried (snd (monitor_system start envs (init net0 t0))))%Z /\
  critical_time (stats (fst (monitor_system start envs (init net0 t0)))) =
    (2 * ticks_with critical (snd (monitor_system start envs (init net0 t0))))%Z /\
  (happy_time (stats (fst (monitor_system start envs (init net0 t0)))) +
   worried_time (stats (fst (monitor_system start envs (init net0 t0)))) +
   critical_time (stats (fst (monitor_system start envs (init net0 t0)))) =
   2 * (ticks_with happy (snd (monitor_system start envs (init net0 t0))) +
        ticks_with worried (snd (monitor_system start envs (init net0 t0))) +
        ticks_with critical (snd (monitor_system start envs (init net0 t0)))))%Z /\
  (forall (env : Env) (s : App),
     match try_body start env s with
     | (Ok _, s', _) => total_time (stats s') = time_at_980 env - start
     | (Raised _, s', _) => s' = s
     end).
Proof.
  pose proof (counters_follow_trace start envs (init net0 t0)) as H.
  cbv zeta in H. destruct H as (Hh & Hw & Hc).
  rewrite Hh, Hw, Hc. cbn [init stats happy_time worried_time critical_time].
  unfold poll_interval. repeat split; try lia.
  intros env s.
  destruct (iteration_cases start env s)
    as [(e & -> & _)|(cpu & ram & disk & io & speed & s' & out &
                      Hcp & Hrm & Hdk & Hio & Hs & Hbody & _)]; [reflexivity|].
  destruct (try_body_ok start env s cpu ram disk io speed Hcp Hrm Hdk Hio Hs)
    as (s3 & out3 & Heq & _ & _ & _ & _ & _ & _ & Ht & _).
  rewrite Heq. exact Ht.
Qed.

(** ** Division and the network rate *)

Lemma py_div_ok a b : ~ b == 0 -> py_div a b = Ok (a / b).
Proof.
  intros H. unfold py_div. destruct (Qeq_bool b 0) eqn:E; [|reflexivity].
  apply Qeq_bool_iff in E. contradiction.
Qed.

Lemma py_div_zero a b : b == 0 -> py_div a b = Raised ZeroDivisionError.
Proof.
  intros H. unfold py_div. apply Qeq_bool_iff in H. rewrite H. reflexivity.
Qed.

Lemma net_speed_ok prev prev_time curr curr_time :
  ~ curr_time - prev_time == 0 ->
  net_speed prev prev_time curr curr_time =
    Ok (inject_Z ((bytes_sent curr - bytes_sent prev) +
                  (bytes_recv curr - bytes_recv prev))
        / (curr_time - prev_time) / 1024).
Proof.
  intros H. unfold net_speed. cbv zeta. rewrite (py_div_ok _ _ H).
  cbn [obind]. apply py_div_ok. discriminate.
Qed.

Lemma div_nonneg a b : 0 <= a -> 0 < b -> 0 <= a / b.
Proof.
  intros Ha Hb. apply Qle_shift_div_l; [exact Hb|].
  rewrite Qmult_0_l. exact Ha.
Qed.

Lemma net_speed_nonneg prev prev_time curr curr_time :
  prev_time < curr_time ->
  (bytes_sent prev <= bytes_sent curr)%Z ->
  (bytes_recv prev <= bytes_recv curr)%Z ->
  exists v, net_speed prev prev_time curr curr_time = Ok v /\ 0 <= v.
Proof.
  intros Ht Hs Hr.
  assert (Hpos : 0 < curr_time - prev_time)
    by (unfold Qminus; apply (proj1 (Qlt_minus_iff prev_time curr_time)); exact Ht).
  assert (Hnz : ~ curr_time - prev_time == 0).
  { intros E. rewrite E in Hpos. discriminate Hpos. }
  eexists. split; [apply net_speed_ok; exact Hnz|].
  apply div_nonneg; [|reflexivity].
  apply div_nonneg; [|exact Hpos].
  change 0 with (inject_Z 0). rewrite <- Zle_Qle. lia.
Qed.

(** The rate for an elapsed time of zero, for counters that went down,
    and for the example of the specification. *)
Lemma net_speed_unguarded :
  net_speed (mkNetIO 1000 2000) 5 (mkNetIO 1000 3000) 5 = Raised ZeroDivisionError /\
  (exists v, net_speed (mkNetIO 1000 2000) 0 (mkNetIO 0 0) 2 = Ok v /\ v < 0) /\
  (exists v, net_speed (mkNetIO 1000 2000) 0 (mkNetIO 1000 3000) 2 = Ok v /\
             v == 500 / 1024 /\ ~ v == 500).
Proof.
  split; [reflexivity|split].
  - eexists. split; [vm_compute; reflexivity|reflexivity].
  - eexists. split; [vm_compute; reflexivity|split; [reflexivity|discriminate]].
Qed.

(** C5 (amended). The rate is computed in KB/s as
    ((currSent - prevSent) + (currRecv - prevRecv)) / elapsed / 1024 with
    the elapsed time taken as it is: an elapsed time of zero raises
    [ZeroDivisionError]; any other elapsed time gives that quotient.  The
    rate is not negative when the elapsed time is positive and neither
    counter went down.  For prevSent = 1000, currSent = 1000,
    prevRecv = 2000, currRecv = 3000 and 2 s elapsed the result is
    500/1024 KB/s, that is 500 bytes per second. *)
Theorem net_speed_formula (prev curr : NetIO) (prev_time curr_time : Q) :
  (curr_time - prev_time == 0 ->
     net_speed prev prev_time curr curr_time = Raised ZeroDivisionError) /\
  (~ curr_time - prev_time == 0 ->
     net_speed prev prev_time curr curr_time =
       Ok (inject_Z ((bytes_sent curr - bytes_sent prev) +
                     (bytes_recv curr - bytes_recv prev))
           / (curr_time - prev_time) / 1024)) /\
  (prev_time < curr_time ->
     (bytes_sent prev <= bytes_sent curr)%Z ->
     (bytes_recv prev <= bytes_recv curr)%Z ->
     exists v, net_speed prev prev_time curr curr_time = Ok v /\ 0 <= v) /\
  (exists v, net_speed (mkNetIO 1000 2000) 0 (mkNetIO 1000 3000) 2 = Ok v /\
             v * 1024 == 500).
Proof.
  split; [|split; [|split]].
  - intros H. unfold net_speed. cbv zeta. rewrite (py_div_zero _ _ H). reflexivity.
  - apply net_speed_ok.
  - apply net_speed_nonneg.
  - eexists. split; [vm_compute; reflexivity|reflexivity].
Qed.

Lemma net_speed_formula_witness :
  net_speed (mkNetIO 1000 2000) 10 (mkNetIO 1000 3000) 12 =
    Ok (inject_Z ((1000 - 1000) + (3000 - 2000)) / (12 - 10) / 1024) /\
  net_speed (mkNetIO 1000 2000) 10 (mkNetIO 1000 3000) 10 = Raised ZeroDivisionError /\
  exists v, net_speed (mkNetIO 1000 2000) 10 (mkNetIO 1000 3000) 12 = Ok v /\ 0 <= v.
Proof.
  split; [|split].
  - apply (proj1 (proj2 (net_speed_formula (mkNetIO 1000 2000) (mkNetIO 1000 3000) 10 12))).
    discriminate.
  - apply (proj1 (net_speed_formula (mkNetIO 1000 2000) (mkNetIO 1000 3000) 10 10)).
    reflexivity.
  - apply (proj1 (proj2 (proj2
             (net_speed_formula (mkNetIO 1000 2000) (mkNetIO 1000 3000) 10 12)))).
    + reflexivity.
    + cbn. lia.
    + cbn. lia.
Defined.

(** ** The network history *)

Lemma net_sample_le_100 speed : net_sample speed <= 100.
Proof.
  unfold net_sample, Py.min.
  destruct (Py.lt 100 (speed / 1024 * 10)) eqn:E.
  - apply Qle_refl.
  - apply lt_false_iff in E. exact E.
Qed.

Lemma net_sample_nonneg speed : 0 <= speed -> 0 <= net_sample speed.
Proof.
  intros H. unfold net_sample, Py.min.
  destruct (Py.lt 100 (speed / 1024 * 10)); [discriminate|].
  apply Qmult_le_0_compat; [|discriminate].
  apply div_nonneg; [exact H|reflexivity].
Qed.

Lemma Forall_append {A : Type} (P : A -> Prop) (n : nat) (d : list A) (x : A) :
  Forall P d -> P x -> Forall P (Deque.append n d x).
Proof.
  intros Hd Hx.
  assert (H : Forall P (d ++ [x])) by (apply Forall_app; split; [exact Hd|constructor; [exact Hx|constructor]]).
  unfold Deque.append. destruct (n <? length (d ++ [x]))%nat; [|exact H].
  destruct (d ++ [x]); [constructor|]. inversion H; assumption.
Qed.

(** ** The statistics display *)

Lemma len_nonzero {A : Type} (h : list A) : h <> [] -> ~ Py.len h == 0.
Proof.
  intros Hne E. unfold Py.len, Qeq in E. cbn [Qnum Qden inject_Z] in E.
  destruct h; [congruence|cbn [length] in E; lia].
Qed.

Lemma average_nonempty (h : list Q) :
  h <> [] -> average h = Ok (Py.sum h / Py.len h).
Proof.
  intros H. apply py_div_ok. apply len_nonzero. exact H.
Qed.

(** As long as the cpu history is empty, no session time has been
    recorded. *)
Lemma empty_history_no_time (s : App) :
  reachable s -> cpu_history s = [] -> total_time (stats s) = 0.
Proof.
  revert s.
  apply (reachable_invariant (fun s => cpu_history s = [] -> total_time (stats s) = 0)).
  - reflexivity.
  - intros start env s IH.
    destruct (iteration_cases start env s)
      as [(e & _ & ->)|(cpu & ram & disk & io & speed & s' & out &
                        Hc & Hrm & Hdk & Hio & Hs & Hbody & ->)];
      cbn [fst]; [exact IH|].
    destruct (try_body_ok start env s cpu ram disk io speed Hc Hrm Hdk Hio Hs)
      as (s2 & out2 & Heq & Hch & _).
    rewrite Hbody in Heq. injection Heq as <- <-.
    rewrite Hch. intros E. exfalso. exact (append_nonempty _ _ E).
Qed.

Lemma nonempty_of_length {A B : Type} (h : list A) (k : list B) :
  length h = length k -> k <> [] -> h <> [].
Proof.
  intros H Hk ->. destruct k; [congruence|discriminate].
Qed.

(** A session in which the clock is set back by 4 s before the first
    tick: the tick completes and stores its samples, the recorded session
    time is negative, and the display leaves the label alone although the
    buffers hold a sample. *)
Lemma display_skipped_with_samples :
  let s := fst (monitor_system 10
                  [sample_env 10 20 30 (mkNetIO 0 0) 6 90 true]
                  (init (mkNetIO 0 0) 10)) in
  cpu_history s = [10] /\
  update_statistics_display s = Ok NoUpdate.
Proof. vm_compute. split; reflexivity. Qed.

(** C8 (amended). In every state the monitoring loop can reach, the
    statistics display never divides by zero.  When the recorded session
    time is positive the three buffers are not empty and the averages
    shown are the arithmetic means [sum / len] of their current contents;
    otherwise, and in particular whenever a buffer is empty, the display
    computes nothing and leaves the label as it is. *)
Theorem display_average_guarded (s : App) :
  reachable s ->
  (0 < total_time (stats s) ->
     cpu_history s <> [] /\ ram_history s <> [] /\ disk_history s <> [] /\
     exists text,
       update_statistics_display s = Ok (Configure text) /\
       average_cpu text = Py.sum (cpu_history s) / Py.len (cpu_history s) /\
       average_ram text = Py.sum (ram_history s) / Py.len (ram_history s) /\
       average_disk text = Py.sum (disk_history s) / Py.len (disk_history s)) /\
  (~ 0 < total_time (stats s) -> update_statistics_display s = Ok NoUpdate) /\
  (cpu_history s = [] \/ ram_history s = [] \/ disk_history s = [] ->
     update_statistics_display s = Ok NoUpdate) /\
  (forall e, update_statistics_display s <> Raised e).
Proof.
  intros Hs.
  pose proof (empty_history_no_time s Hs) as Hempty.
  destruct (histories_invariant s Hs) as (_ & Hr & Hd & _).
  assert (Hpos : 0 < total_time (stats s) ->
                 cpu_history s <> [] /\ ram_history s <> [] /\ disk_history s <> []).
  { intros Ht.
    assert (Hc : cpu_history s <> []).
    { intros E. rewrite (Hempty E) in Ht. discriminate Ht. }
    repeat split; [exact Hc| |]; eapply nonempty_of_length; eassumption. }
  assert (Hshown : 0 < total_time (stats s) ->
            update_statistics_display s =
              Ok (Configure
                    (mkStatsText (total_time (stats s))
                       (inject_Z (happy_time (stats s)) / total_time (stats s) * 100)
                       (inject_Z (worried_time (stats s)) / total_time (stats s) * 100)
                       (inject_Z (critical_time (stats s)) / total_time (stats s) * 100)
                       (max_cpu (stats s)) (max_ram (stats s)) (max_disk (stats s))
                       (Py.sum (cpu_history s) / Py.len (cpu_history s))
                       (Py.sum (ram_history s) / Py.len (ram_history s))
                       (Py.sum (disk_history s) / Py.len (disk_history s))))).
  { intros Ht. destruct (Hpos Ht) as (Hc & Hrm & Hdk).
    assert (Hnz : ~ total_time (stats s) == 0).
    { intros E. rewrite E in Ht. discriminate Ht. }
    unfold update_statistics_display. cbv zeta.
    rewrite (proj2 (gt_true_iff _ _) Ht).
    unfold percent_of. rewrite !(py_div_ok _ _ Hnz). cbn [obind].
    rewrite (average_nonempty _ Hc), (average_nonempty _ Hrm), (average_nonempty _ Hdk).
    reflexivity. }
  assert (Hskip : ~ 0 < total_time (stats s) -> update_statistics_display s = Ok NoUpdate).
  { intros Hn. unfold update_statistics_display. cbv zeta.
    destruct (Py.gt (total_time (stats s)) 0) eqn:E; [|reflexivity].
    apply gt_true_iff in E. contradiction. }
  split; [|split; [|split]].
  - intros Ht. destruct (Hpos Ht) as (Hc & Hrm & Hdk).
    repeat split; try assumption.
    eexists. split; [apply Hshown; exact Ht|]. repeat split.
  - exact Hskip.
  - intros Hem. apply Hskip. intros Ht.
    destruct (Hpos Ht) as (Hc & Hrm & Hdk). tauto.
  - intros e.
    destruct (Qlt_le_dec 0 (total_time (stats s))) as [Ht|Hle].
    + rewrite (Hshown Ht). discriminate.
    + rewrite Hskip; [discriminate|]. apply Qle_not_lt. exact Hle.
Qed.

Lemma display_average_guarded_witness :
  let s := fst (monitor_system 0
                  [sample_env 10 20 30 (mkNetIO 0 0) 1 90 true;
                   sample_env 30 20 10 (mkNetIO 0 0) 4 90 true]
                  (init (mkNetIO 0 0) 0)) in
  exists text,
    update_statistics_display s = Ok (Configure text) /\
    average_cpu text = Py.sum (cpu_history s) / Py.len (cpu_history s) /\
    average_ram text = Py.sum (ram_history s) / Py.len (ram_history s) /\
    average_disk text = Py.sum (disk_history s) / Py.len (disk_history s).
Proof.
  intros s.
  assert (Hs : reachable s) by (unfold reachable, s; do 4 eexists; reflexivity).
  apply (proj1 (display_average_guarded s Hs)).
  vm_compute. reflexivity.
Defined.

(** * Further properties of the code *)

(** ** More on the classifier *)

(** The four outcomes of [determine_mood] with the conditions that lead
    to them. *)
Lemma determine_mood_cases (cpu ram disk threshold : Q) :
  ((threshold < cpu \/ threshold < ram \/ threshold < disk) /\
   determine_mood cpu ram disk threshold = critical) \/
  ((cpu <= threshold /\ ram <= threshold /\ disk <= threshold) /\
   (75 < cpu \/ 75 < ram \/ 75 < disk) /\
   determine_mood cpu ram disk threshold = worried) \/
  ((cpu <= threshold /\ ram <= threshold /\ disk <= threshold) /\
   (cpu <= 75 /\ ram <= 75 /\ disk <= 75) /\
   (cpu < 30 /\ ram < 50 /\ disk < 70) /\
   determine_mood cpu ram disk threshold = happy) \/
  ((cpu <= threshold /\ ram <= threshold /\ disk <= threshold) /\
   (cpu <= 75 /\ ram <= 75 /\ disk <= 75) /\
   ~ (cpu < 30 /\ ram < 50 /\ disk < 70) /\
   determine_mood cpu ram disk threshold = content).
Proof.
  unfold determine_mood.
  destruct (Py.gt cpu threshold || Py.gt ram threshold || Py.gt disk threshold) eqn:Hc.
  { apply any_gt_true in Hc. left. split; [exact Hc|reflexivity]. }
  apply any_gt_false in Hc. right.
  destruct (Py.gt cpu 75 || Py.gt ram 75 || Py.gt disk 75) eqn:Hw.
  { apply any_gt_true in Hw. left. repeat split; tauto. }
  apply any_gt_false in Hw. right.
  destruct (Py.lt cpu 30 && Py.lt ram 50 && Py.lt disk 70) eqn:Hh.
  { apply all_lt_true in Hh. left. repeat split; tauto. }
  apply all_lt_false in Hh. right. repeat split; tauto.
Qed.

(** X1. Raising any of the three readings never lowers the severity of
    the mood (happy < content < worried < critical), the threshold being
    the same. *)
Theorem determine_mood_monotone (cpu ram disk cpu' ram' disk' threshold : Q) :
  cpu <= cpu' -> ram <= ram' -> disk <= disk' ->
  (severity (determine_mood cpu ram disk threshold) <=
   severity (determine_mood cpu' ram' disk' threshold))%nat.
Proof.
  intros Hc Hr Hd.
  destruct (determine_mood_cases cpu ram disk threshold)
    as [(A & ->)|[(A1 & A2 & ->)|[(A1 & A2 & A3 & ->)|(A1 & A2 & A3 & ->)]]];
  destruct (determine_mood_cases cpu' ram' disk' threshold)
    as [(B & ->)|[(B1 & B2 & ->)|[(B1 & B2 & B3 & ->)|(B1 & B2 & B3 & ->)]]];
  cbn [severity]; try lia; exfalso.
  - destruct B1 as (? & ? & ?). destruct A as [?|[?|?]]; lra.
  - destruct B1 as (? & ? & ?). destruct A as [?|[?|?]]; lra.
  - destruct B1 as (? & ? & ?). destruct A as [?|[?|?]]; lra.
  - destruct B2 as (? & ? & ?). destruct A2 as [?|[?|?]]; lra.
  - destruct B2 as (? & ? & ?). destruct A2 as [?|[?|?]]; lra.
  - apply A3. destruct B3 as (? & ? & ?). repeat split; lra.
Qed.

Lemma determine_mood_monotone_witness :
  (severity (determine_mood 20 40 60 90) <= severity (determine_mood 80 40 60 90))%nat.
Proof.
  apply determine_mood_monotone; discriminate.
Defined.

(** X2. When the slider is at 75 or below, no reading is ever classified
    Worried: whatever exceeds 75 also exceeds the threshold and is
    Critical. *)
Theorem low_threshold_never_worried (cpu ram disk threshold : Q) :
  threshold <= 75 ->
  determine_mood cpu ram disk threshold <> worried.
Proof.
  intros Ht.
  destruct (determine_mood_cases cpu ram disk threshold)
    as [(A & ->)|[(A1 & A2 & ->)|[(A1 & A2 & A3 & ->)|(A1 & A2 & A3 & ->)]]];
    try discriminate.
  exfalso. destruct A1 as (? & ? & ?). destruct A2 as [?|[?|?]]; lra.
Qed.

Lemma low_threshold_never_worried_witness :
  determine_mood 80 10 10 60 <> worried.
Proof.
  apply low_threshold_never_worried. discriminate.
Defined.

(** ** Bar colours and the alert text *)

Lemma bar_crimson value : update_bars_color value = "#DC143C"%string <-> 90 < value.
Proof.
  unfold update_bars_color. rewrite <- gt_true_iff.
  destruct (Py.gt value 90); [tauto|].
  destruct (Py.gt value 75); split; discriminate.
Qed.

Lemma bar_orange value :
  update_bars_color value = "#FFA500"%string <-> 75 < value /\ value <= 90.
Proof.
  unfold update_bars_color. rewrite <- gt_true_iff, <- gt_false_iff.
  destruct (Py.gt value 90) eqn:E1; destruct (Py.gt value 75) eqn:E2;
    split; try discriminate; try tauto; intros [? ?]; discriminate.
Qed.

Lemma bar_green value : update_bars_color value = "#4CAF50"%string <-> value <= 75.
Proof.
  unfold update_bars_color. rewrite <- gt_false_iff.
  destruct (Py.gt value 90) eqn:E1; destruct (Py.gt value 75) eqn:E2;
    split; try discriminate; try tauto.
  apply gt_true_iff in E1. apply gt_false_iff in E2. intros _. exfalso. lra.
Qed.

(** X3. The colours of the cpu, ram and disk bars use the fixed limits 90
    and 75.  With the slider at 90 they agree with the mood: the mood is
    Critical exactly when some bar is crimson, Worried exactly when no bar
    is crimson and some bar is orange, and Happy or Content exactly when
    all three bars are green.  For a slider at 90 or below a crimson bar
    still implies Critical, and for a slider at 75 or above three green
    bars still imply Happy or Content. *)
Theorem bar_colors_follow_mood (cpu ram disk : Q) :
  (determine_mood cpu ram disk 90 = critical <->
     (update_bars_color cpu = "#DC143C" \/ update_bars_color ram = "#DC143C" \/
      update_bars_color disk = "#DC143C")%string) /\
  (determine_mood cpu ram disk 90 = worried <->
     (~ (update_bars_color cpu = "#DC143C" \/ update_bars_color ram = "#DC143C" \/
         update_bars_color disk = "#DC143C") /\
      (update_bars_color cpu = "#FFA500" \/ update_bars_color ram = "#FFA500" \/
       update_bars_color disk = "#FFA500"))%string) /\
  ((determine_mood cpu ram disk 90 = happy \/ determine_mood cpu ram disk 90 = content) <->
     (update_bars_color cpu = "#4CAF50" /\ update_bars_color ram = "#4CAF50" /\
      update_bars_color disk = "#4CAF50")%string) /\
  (forall threshold, threshold <= 90 ->
     (update_bars_color cpu = "#DC143C" \/ update_bars_color ram = "#DC143C" \/
      update_bars_color disk = "#DC143C")%string ->
     determine_mood cpu ram disk threshold = critical) /\
  (forall threshold, 75 <= threshold ->
     (update_bars_color cpu = "#4CAF50" /\ update_bars_color ram = "#4CAF50" /\
      update_bars_color disk = "#4CAF50")%string ->
     determine_mood cpu ram disk threshold = happy \/
     determine_mood cpu ram disk threshold = content).
Proof.
  rewrite !bar_crimson, !bar_orange, !bar_green.
  split; [|split; [|split; [|split]]].
  - destruct (determine_mood_cases cpu ram disk 90)
      as [(A & ->)|[(A1 & A2 & ->)|[(A1 & A2 & A3 & ->)|(A1 & A2 & A3 & ->)]]];
      split; try discriminate; try tauto; intros H; exfalso;
      destruct A1 as (? & ? & ?); destruct H as [?|[?|?]]; lra.
  - destruct (determine_mood_cases cpu ram disk 90)
      as [(A & ->)|[(A1 & A2 & ->)|[(A1 & A2 & A3 & ->)|(A1 & A2 & A3 & ->)]]];
      split; try discriminate; try tauto.
    + intros _. split.
      * destruct A1 as (? & ? & ?). intros [?|[?|?]]; lra.
      * destruct A1 as (? & ? & ?). destruct A2 as [?|[?|?]]; [left|right; left|right; right]; split; assumption.
    + intros [_ H]. exfalso. destruct A2 as (? & ? & ?).
      destruct H as [[? ?]|[[? ?]|[? ?]]]; lra.
    + intros [_ H]. exfalso. destruct A2 as (? & ? & ?).
      destruct H as [[? ?]|[[? ?]|[? ?]]]; lra.
  - destruct (determine_mood_cases cpu ram disk 90)
      as [(A & ->)|[(A1 & A2 & ->)|[(A1 & A2 & A3 & ->)|(A1 & A2 & A3 & ->)]]];
      split; try tauto.
    + intros [H|H]; discriminate H.
    + intros (? & ? & ?). exfalso. destruct A as [?|[?|?]]; lra.
    + intros [H|H]; discriminate H.
    + intros (? & ? & ?). exfalso. destruct A2 as [?|[?|?]]; lra.
  - intros threshold Ht H. rewrite ?bar_crimson in H.
    destruct (determine_mood_cases cpu ram disk threshold)
      as [(A & ->)|[(A1 & A2 & ->)|[(A1 & A2 & A3 & ->)|(A1 & A2 & A3 & ->)]]];
      try reflexivity; exfalso; destruct A1 as (? & ? & ?);
      destruct H as [?|[?|?]]; lra.
  - intros threshold Ht H. rewrite ?bar_green in H. destruct H as (? & ? & ?).
    destruct (determine_mood_cases cpu ram disk threshold)
      as [(A & ->)|[(A1 & A2 & ->)|[(A1 & A2 & A3 & ->)|(A1 & A2 & A3 & ->)]]];
      try tauto; exfalso.
    + destruct A as [?|[?|?]]; lra.
    + destruct A2 as [?|[?|?]]; lra.
Qed.

Lemma bar_colors_follow_mood_witness :
  determine_mood 95 10 10 80 = critical /\
  (determine_mood 60 70 75 80 = happy \/ determine_mood 60 70 75 80 = content).
Proof.
  split.
  - apply (proj1 (proj2 (proj2 (proj2 (bar_colors_follow_mood 95 10 10)))) 80).
    + discriminate.
    + left. reflexivity.
  - apply (proj2 (proj2 (proj2 (proj2 (bar_colors_follow_mood 60 70 75)))) 80).
    + discriminate.
    + repeat split.
Defined.

Lemma show_alert_in (cpu ram disk : Q) (m : Metric) (v : Q) :
  In (m, v) (show_alert cpu ram disk) <->
  (m = CPU /\ v = cpu /\ 90 < cpu) \/
  (m = RAM /\ v = ram /\ 90 < ram) \/
  (m = Disk /\ v = disk /\ 90 < disk).
Proof.
  unfold show_alert. rewrite !in_app_iff, <- !gt_true_iff.
  destruct (Py.gt cpu 90), (Py.gt ram 90), (Py.gt disk 90); cbn [In];
    split; intros H;
    repeat match goal with
    | H : _ \/ _ |- _ => destruct H
    | H : _ /\ _ |- _ => destruct H
    | H : False |- _ => destruct H
    | H : (_, _) = (_, _) |- _ => injection H as <- <-
    | H : false = true |- _ => discriminate H
    end; subst; auto 10.
Qed.

(** X4. The alert text lists exactly the metrics above the fixed limit
    90, in the order CPU, RAM, Disk.  When the slider is at 90 or above,
    every Critical reading lists at least one metric; for every slider
    value below 90 there are Critical readings whose alert lists none. *)
Theorem show_alert_lists_metrics_above_90 :
  (forall (cpu ram disk : Q) (m : Metric) (v : Q),
     In (m, v) (show_alert cpu ram disk) <->
     (m = CPU /\ v = cpu /\ 90 < cpu) \/
     (m = RAM /\ v = ram /\ 90 < ram) \/
     (m = Disk /\ v = disk /\ 90 < disk)) /\
  (forall cpu ram disk threshold : Q,
     90 <= threshold ->
     determine_mood cpu ram disk threshold = critical ->
     show_alert cpu ram disk <> []) /\
  (forall threshold : Q,
     threshold < 90 ->
     determine_mood 90 0 0 threshold = critical /\ show_alert 90 0 0 = []).
Proof.
  split; [exact show_alert_in|split].
  - intros cpu ram disk threshold Ht Hm.
    destruct (determine_mood_cases cpu ram disk threshold)
      as [(A & _)|[(_ & _ & E)|[(_ & _ & _ & E)|(_ & _ & _ & E)]]];
      try (rewrite E in Hm; discriminate Hm).
    intros Hnil.
    assert (Hin : exists m v, In (m, v) (show_alert cpu ram disk)).
    { destruct A as [H|[H|H]].
      - exists CPU, cpu. apply show_alert_in. left. repeat split. lra.
      - exists RAM, ram. apply show_alert_in. right. left. repeat split. lra.
      - exists Disk, disk. apply show_alert_in. right. right. repeat split. lra. }
    destruct Hin as (m & v & Hin). rewrite Hnil in Hin. destruct Hin.
  - intros threshold Ht. split; [|reflexivity].
    unfold determine_mood. rewrite (proj2 (gt_true_iff 90 threshold) Ht). reflexivity.
Qed.

Lemma show_alert_lists_metrics_above_90_witness :
  show_alert 95 10 10 <> [] /\
  determine_mood 90 0 0 60 = critical /\ show_alert 90 0 0 = [].
Proof.
  split.
  - apply (proj1 (proj2 show_alert_lists_metrics_above_90) 95 10 10 90).
    + discriminate.
    + reflexivity.
  - apply (proj2 (proj2 show_alert_lists_metrics_above_90) 60). reflexivity.
Defined.

(** ** Durations and sizes *)

(** X5. For a duration of [n >= 0] whole seconds, [format_uptime] shows
    the duration rounded down to the minute: minutes only below one hour,
    hours and minutes below one day, days, hours and minutes from one day
    on; hours stay below 24 and minutes below 60. *)
Theorem format_uptime_rounds_down (n : Z) :
  (0 <= n)%Z ->
  ((n < 3600)%Z /\
   exists m, format_uptime (timedelta_of_seconds n) = text_m m /\
             (0 <= m < 60 /\ 60 * m <= n < 60 * m + 60)%Z) \/
  ((3600 <= n < 86400)%Z /\
   exists h m, format_uptime (timedelta_of_seconds n) = text_hm h m /\
               (0 < h < 24 /\ 0 <= m < 60 /\
                3600 * h + 60 * m <= n < 3600 * h + 60 * m + 60)%Z) \/
  ((86400 <= n)%Z /\
   exists d h m, format_uptime (timedelta_of_seconds n) = text_dhm d h m /\
                 (0 < d /\ 0 <= h < 24 /\ 0 <= m < 60 /\
                  86400 * d + 3600 * h + 60 * m <= n
                    < 86400 * d + 3600 * h + 60 * m + 60)%Z).
Proof.
  intros Hn. unfold format_uptime, timedelta_of_seconds. cbn [days seconds].
  destruct (Z.ltb_spec 0 (n / 86400)) as [Hd|Hd].
  - right. right. split; [Z.div_mod_to_equations; lia|].
    eexists _, _, _. split; [reflexivity|]. Z.div_mod_to_equations. lia.
  - destruct (Z.ltb_spec 0 (n mod 86400 / 3600)) as [Hh|Hh].
    + right. left. split; [Z.div_mod_to_equations; lia|].
      eexists _, _. split; [reflexivity|]. Z.div_mod_to_equations. lia.
    + left. split; [Z.div_mod_to_equations; lia|].
      eexists. split; [reflexivity|]. Z.div_mod_to_equations. lia.
Qed.

Lemma format_uptime_rounds_down_witness :
  ((93784 < 3600)%Z /\
   exists m, format_uptime (timedelta_of_seconds 93784) = text_m m /\
             (0 <= m < 60 /\ 60 * m <= 93784 < 60 * m + 60)%Z) \/
  ((3600 <= 93784 < 86400)%Z /\
   exists h m, format_uptime (timedelta_of_seconds 93784) = text_hm h m /\
               (0 < h < 24 /\ 0 <= m < 60 /\
                3600 * h + 60 * m <= 93784 < 3600 * h + 60 * m + 60)%Z) \/
  ((86400 <= 93784)%Z /\
   exists d h m, format_uptime (timedelta_of_seconds 93784) = text_dhm d h m /\
                 (0 < d /\ 0 <= h < 24 /\ 0 <= m < 60 /\
                  86400 * d + 3600 * h + 60 * m <= 93784
                    < 86400 * d + 3600 * h + 60 * m + 60)%Z).
Proof.
  apply (format_uptime_rounds_down 93784). lia.
Defined.

(** X6. A negative duration loses its day count: [format_uptime] shows
    only the time of day that [timedelta] keeps in [seconds], so a
    duration of -1 s is shown like 23 h 59 min. *)
Theorem format_uptime_negative (n : Z) :
  (n < 0)%Z ->
  format_uptime (timedelta_of_seconds n) =
  format_uptime (timedelta_of_seconds (n mod 86400)) /\
  forall d h m, format_uptime (timedelta_of_seconds n) <> text_dhm d h m.
Proof.
  intros Hn. unfold format_uptime, timedelta_of_seconds. cbn [days seconds].
  assert (H1 : (n / 86400 < 0)%Z) by (Z.div_mod_to_equations; lia).
  assert (H2 : (n mod 86400 / 86400 = 0)%Z)
    by (apply Z.div_small; apply Z.mod_pos_bound; lia).
  rewrite H2, Zmod_mod.
  destruct (Z.ltb_spec 0 (n / 86400)) as [?|_]; [lia|].
  cbn [Z.ltb Z.compare].
  split; [reflexivity|].
  intros d h m. destruct (0 <? n mod 86400 / 3600)%Z; discriminate.
Qed.

Lemma format_uptime_negative_witness :
  format_uptime (timedelta_of_seconds (-1)) =
  format_uptime (timedelta_of_seconds ((-1) mod 86400)) /\
  forall d h m, format_uptime (timedelta_of_seconds (-1)) <> text_dhm d h m.
Proof.
  apply (format_uptime_negative (-1)). lia.
Defined.

Lemma round_half_even_floor (y : Q) :
  (Qfloor y <= round_half_even y <= Qfloor y + 1)%Z.
Proof.
  unfold round_half_even. cbv zeta.
  destruct (Py.lt (y - inject_Z (Qfloor y)) (1 # 2)); [lia|].
  destruct (Py.gt (y - inject_Z (Qfloor y)) (1 # 2)); [lia|].
  destruct (Z.even (Qfloor y)); lia.
Qed.

(** The rounded value is within one half of the argument. *)
Lemma round_half_even_near (y : Q) :
  inject_Z (round_half_even y) - (1 # 2) <= y /\
  y <= inject_Z (round_half_even y) + (1 # 2).
Proof.
  pose proof (Qfloor_le y) as Hlo. pose proof (Qlt_floor y) as Hhi.
  rewrite inject_Z_plus in Hhi. change (inject_Z 1) with 1 in Hhi.
  unfold round_half_even. cbv zeta.
  destruct (Py.lt (y - inject_Z (Qfloor y)) (1 # 2)) eqn:E1.
  { apply lt_true_iff in E1. split; lra. }
  apply lt_false_iff in E1.
  destruct (Py.gt (y - inject_Z (Qfloor y)) (1 # 2)) eqn:E2.
  { rewrite inject_Z_plus. change (inject_Z 1) with 1. split; lra. }
  apply gt_false_iff in E2.
  destruct (Z.even (Qfloor y)).
  - split; lra.
  - rewrite inject_Z_plus. change (inject_Z 1) with 1. split; lra.
Qed.

Lemma round_half_even_ge (n : Z) (y : Q) :
  inject_Z n <= y -> (n <= round_half_even y)%Z.
Proof.
  intros H. apply Qfloor_resp_le in H. rewrite Qfloor_Z in H.
  pose proof (round_half_even_floor y). lia.
Qed.

Lemma round_half_even_le (n : Z) (y : Q) :
  y <= inject_Z n -> (round_half_even y <= n)%Z.
Proof.
  intros H. pose proof (Qfloor_resp_le _ _ H) as Hf. rewrite Qfloor_Z in Hf.
  pose proof (round_half_even_floor y) as Hr.
  destruct (Z.eq_dec (Qfloor y) n) as [E|E]; [|lia].
  unfold round_half_even. cbv zeta.
  destruct (Py.lt (y - inject_Z (Qfloor y)) (1 # 2)) eqn:E1; [lia|].
  apply lt_false_iff in E1. rewrite E in E1. exfalso. lra.
Qed.

Ltac format_bytes_cases v :=
  unfold format_bytes; cbn [format_bytes_from];
  destruct (Py.lt v 1024) eqn:E0;
  [|destruct (Py.lt (v / 1024) 1024) eqn:E1;
    [|destruct (Py.lt (v / 1024 / 1024) 1024) eqn:E2;
      [|destruct (Py.lt (v / 1024 / 1024 / 1024) 1024) eqn:E3;
        [|destruct (Py.lt (v / 1024 / 1024 / 1024 / 1024) 1024) eqn:E4]]]];
  repeat match goal with
  | H : Py.lt _ _ = true |- _ => apply lt_true_iff in H
  | H : Py.lt _ _ = false |- _ => apply lt_false_iff in H
  end;
  cbn [fst snd bytes_per_unit].

Lemma div_1024_ge_1 (x : Q) : 1024 <= x -> 1 <= x / 1024.
Proof.
  intros H. apply Qle_shift_div_l; [reflexivity|]. rewrite Qmult_1_l. exact H.
Qed.

(** The value that [format_bytes] formats: the input divided down to the
    unit it chooses. *)
Lemma format_bytes_value (v : Q) :
  exists x,
    fst (format_bytes v) = format_2f x /\
    x * bytes_per_unit (snd (format_bytes v)) == v /\
    (v < 1024 -> x = v /\ snd (format_bytes v) = B) /\
    (1024 <= v ->
       snd (format_bytes v) <> B /\ 1 <= x /\
       (snd (format_bytes v) <> PB -> x < 1024)).
Proof.
  format_bytes_cases v; eexists; (split; [reflexivity|]); (split; [field|]);
    (split; [intros Hlt; try (exfalso; lra); split; reflexivity|]);
    intros Hge; try (exfalso; lra);
    (split; [discriminate|split;
       [apply div_1024_ge_1; assumption|intros Hu; try congruence; assumption]]).
Qed.

(** X7. [format_bytes] divides by 1024 until the value is below 1024 or
    the unit PB is reached, and returns that value written with two
    decimals: the sign is that of the value, and the hundredths shown are
    within one half of the hundredfold of its magnitude.  An input below
    1024, negative ones included, is written in B.  An input of 1024 or
    more is written in a larger unit, without a sign, with at least 1.00
    and, unless the unit is PB, at most 1024.00; the latter is reached:
    1048575 bytes are written 1024.00 KB and 1023.9999 bytes 1024.00 B.
    Ties go to the even digit: 0.125 is written 0.12 and 0.375 is
    written 0.38. *)
Theorem format_bytes_rounds (v : Q) :
  (exists x,
     x * bytes_per_unit (snd (format_bytes v)) == v /\
     is_negative (fst (format_bytes v)) = Py.lt x 0 /\
     inject_Z (hundredths (fst (format_bytes v))) - (1 # 2) <= Qabs x * 100 /\
     Qabs x * 100 <= inject_Z (hundredths (fst (format_bytes v))) + (1 # 2)) /\
  (v < 1024 -> format_bytes v = (format_2f v, B)) /\
  (1024 <= v ->
     snd (format_bytes v) <> B /\
     is_negative (fst (format_bytes v)) = false /\
     (100 <= hundredths (fst (format_bytes v)))%Z /\
     (snd (format_bytes v) <> PB -> (hundredths (fst (format_bytes v)) <= 102400)%Z)) /\
  format_bytes 1048575 = (mkFixed2 false 102400, KB) /\
  format_bytes (10239999 # 10000) = (mkFixed2 false 102400, B) /\
  format_bytes (1 # 8) = (mkFixed2 false 12, B) /\
  format_bytes (3 # 8) = (mkFixed2 false 38, B).
Proof.
  destruct (format_bytes_value v) as (x & Hf & Hx & Hlt & Hge).
  split; [|split; [|split; [|repeat split]]].
  - exists x. rewrite Hf. cbn [format_2f is_negative hundredths].
    split; [exact Hx|]. split; [reflexivity|].
    apply round_half_even_near.
  - intros H. destruct (Hlt H) as (-> & Hu).
    rewrite (surjective_pairing (format_bytes v)), Hf, Hu. reflexivity.
  - intros H. destruct (Hge H) as (Hu & H1 & Hhi). rewrite Hf.
    split; [exact Hu|].
    assert (H0 : 0 <= x) by lra.
    assert (Hlo : inject_Z 100 <= x * 100) by (change (inject_Z 100) with 100; lra).
    split; [apply lt_false_iff; exact H0|]. split.
    + unfold format_2f. cbn [hundredths]. apply round_half_even_ge.
      rewrite (Qabs_pos x H0). exact Hlo.
    + intros Hpb. specialize (Hhi Hpb).
      unfold format_2f. cbn [hundredths]. apply round_half_even_le.
      rewrite (Qabs_pos x H0). change (inject_Z 102400) with 102400. lra.
Qed.

Lemma format_bytes_rounds_witness :
  format_bytes (-5) = (format_2f (-5), B) /\
  (snd (format_bytes 1536) <> B /\
   is_negative (fst (format_bytes 1536)) = false /\
   (100 <= hundredths (fst (format_bytes 1536)))%Z /\
   (snd (format_bytes 1536) <> PB -> (hundredths (fst (format_bytes 1536)) <= 102400)%Z)).
Proof.
  split.
  - apply (proj1 (proj2 (format_bytes_rounds (-5)))). reflexivity.
  - apply (proj1 (proj2 (proj2 (format_bytes_rounds 1536)))). discriminate.
Defined.

(** ** Mood tables *)

Lemma find_key_miss {V : Type} (k key : String.string) (v : V) (rest : dict V) :
  key <> k ->
  find (fun kv => String.eqb (fst kv) k) ((key, v) :: rest) =
  find (fun kv => String.eqb (fst kv) k) rest.
Proof.
  intros H. cbn [find fst]. destruct (String.eqb_spec key k); [contradiction|reflexivity].
Qed.

(** X8. Every mood that [determine_mood] can return has a colour, an
    emoji and five messages to choose from, and the four colours differ.
    For any other key the colour and the emoji fall back to their
    defaults, while [get_message] raises [KeyError]. *)
Theorem mood_tables_cover_moods :
  (forall m : Mood,
     exists color emoji choices,
       dict_item MOOD_COLORS (mood_key m) = Some color /\
       get_mood_color (mood_key m) = color /\
       dict_item MOOD_EMOJIS (mood_key m) = Some emoji /\
       get_mood_emoji (mood_key m) = emoji /\
       get_message (mood_key m) = Some choices /\
       length choices = 5%nat) /\
  (forall m m' : Mood,
     get_mood_color (mood_key m) = get_mood_color (mood_key m') -> m = m') /\
  (forall k : String.string,
     (forall m : Mood, k <> mood_key m) ->
     get_mood_color k = "#2196F3"%string /\
     get_mood_emoji k = "🙂"%string /\
     get_message k = None).
Proof.
  split; [|split].
  - intros m. destruct m; do 3 eexists; repeat split; reflexivity.
  - intros m m'. destruct m, m'; cbn; intros H; try reflexivity; discriminate H.
  - intros k Hk.
    assert (H1 : "happy"%string <> k) by (intros E; apply (Hk happy); rewrite <- E; reflexivity).
    assert (H2 : "content"%string <> k) by (intros E; apply (Hk content); rewrite <- E; reflexivity).
    assert (H3 : "worried"%string <> k) by (intros E; apply (Hk worried); rewrite <- E; reflexivity).
    assert (H4 : "critical"%string <> k) by (intros E; apply (Hk critical); rewrite <- E; reflexivity).
    unfold get_mood_color, get_mood_emoji, get_message, dict_get, dict_item,
      MOOD_COLORS, MOOD_EMOJIS, messages.
    rewrite !(find_key_miss k "happy"%string) by exact H1.
    rewrite !(find_key_miss k "content"%string) by exact H2.
    rewrite !(find_key_miss k "worried"%string) by exact H3.
    rewrite !(find_key_miss k "critical"%string) by exact H4.
    cbn [find]. repeat split.
Qed.

Lemma mood_tables_cover_moods_witness :
  get_mood_color "sleepy"%string = "#2196F3"%string /\
  get_mood_emoji "sleepy"%string = "🙂"%string /\
  get_message "sleepy"%string = None.
Proof.
  apply (proj2 (proj2 mood_tables_cover_moods) "sleepy"%string).
  intros m. destruct m; discriminate.
Defined.

(** ** The blink cycle *)

Lemma animate_pet_closed_form (n : Z) :
  (0 <= n)%Z ->
  animate_pet (mkAnim n (n mod 101) ((101 <=? n)%Z && (n mod 101 <=? 5)%Z)) =
  mkAnim (n + 1) ((n + 1) mod 101) ((101 <=? n + 1)%Z && ((n + 1) mod 101 <=? 5)%Z).
Proof.
  intros Hn. unfold animate_pet. cbn [animation_frame blink_counter is_blinking].
  destruct (Z.ltb_spec 100 (n mod 101 + 1)) as [H|H].
  - assert (E : ((n + 1) mod 101 = 0)%Z) by (Z.div_mod_to_equations; lia).
    rewrite E.
    destruct (Z.leb_spec 101 (n + 1)); [reflexivity|].
    exfalso. Z.div_mod_to_equations. lia.
  - assert (E : ((n + 1) mod 101 = n mod 101 + 1)%Z) by (Z.div_mod_to_equations; lia).
    rewrite E.
    destruct (Z.ltb_spec 5 (n mod 101 + 1)) as [H5|H5].
    + destruct (Z.leb_spec (n mod 101 + 1) 5); [lia|].
      rewrite andb_false_r. reflexivity.
    + destruct (Z.leb_spec (n mod 101 + 1) 5); [|lia].
      destruct (Z.leb_spec (n mod 101) 5); [|lia].
      rewrite !andb_true_r.
      destruct (Z.leb_spec 101 n), (Z.leb_spec 101 (n + 1)); try reflexivity; exfalso.
      * lia.
      * assert (n = 100)%Z by lia. subst n. cbn in H5. lia.
Qed.

(** X9. After [n] animation frames the frame counter is [n], the blink
    counter is [n mod 101], and the pet is drawn with closed eyes exactly
    when [n >= 101] and [n mod 101 <= 5]: from frame 101 on, six frames
    out of every 101. *)
Theorem blink_cycle (n : nat) :
  animate_n n anim_init =
  mkAnim (Z.of_nat n) (Z.of_nat n mod 101)
         ((101 <=? Z.of_nat n)%Z && (Z.of_nat n mod 101 <=? 5)%Z).
Proof.
  induction n as [|n IH]; [reflexivity|].
  cbn [animate_n]. rewrite IH, animate_pet_closed_form by lia.
  replace (Z.of_nat (S n)) with (Z.of_nat n + 1)%Z by lia. reflexivity.
Qed.

(** ** Statistics over a session *)

Lemma py_max_ge_l (a b : Q) : a <= Py.max a b.
Proof.
  unfold Py.max. destruct (Py.gt b a) eqn:E.
  - apply gt_true_iff in E. apply Qlt_le_weak. exact E.
  - apply Qle_refl.
Qed.

Lemma py_max_ge_r (a b : Q) : b <= Py.max a b.
Proof.
  unfold Py.max. destruct (Py.gt b a) eqn:E.
  - apply Qle_refl.
  - apply gt_false_iff in E. exact E.
Qed.

Lemma iteration_stats_grow (start : Q) (env : Env) (s : App) :
  (happy_time (stats s) <= happy_time (stats (fst (iteration start env s))))%Z /\
  (worried_time (stats s) <= worried_time (stats (fst (iteration start env s))))%Z /\
  (critical_time (stats s) <= critical_time (stats (fst (iteration start env s))))%Z /\
  max_cpu (stats s) <= max_cpu (stats (fst (iteration start env s))) /\
  max_ram (stats s) <= max_ram (stats (fst (iteration start env s))) /\
  max_disk (stats s) <= max_disk (stats (fst (iteration start env s))).
Proof.
  destruct (iteration_cases start env s)
    as [(e & _ & ->)|(cpu & ram & disk & io & speed & s' & out &
                      Hc & Hrm & Hdk & Hio & Hs & Hbody & ->)]; cbn [fst].
  - repeat split; try lia; apply Qle_refl.
  - destruct (try_body_ok start env s cpu ram disk io speed Hc Hrm Hdk Hio Hs)
      as (s2 & out2 & Heq & _ & _ & _ & _ & _ & _ & _ & Hmc & Hmr & Hmd & Hrest).
    rewrite Hbody in Heq. injection Heq as <- <-.
    cbv zeta in Hrest. destruct Hrest as (Hh & Hw & Hcr & _).
    rewrite Hh, Hw, Hcr, Hmc, Hmr, Hmd. unfold poll_interval.
    repeat split; try apply py_max_ge_l;
      destruct (determine_mood cpu ram disk (cpu_thresh_slider env)); cbn [Mood_eqb]; lia.
Qed.

(** X10. The three time-in-state counters and the three peak values
    never decrease during a session, whatever the readings and whichever
    ticks are skipped. *)
Theorem stats_never_decrease (start : Q) (envs : list Env) (s : App) :
  (happy_time (stats s) <= happy_time (stats (fst (monitor_system start envs s))))%Z /\
  (worried_time (stats s) <= worried_time (stats (fst (monitor_system start envs s))))%Z /\
  (critical_time (stats s) <= critical_time (stats (fst (monitor_system start envs s))))%Z /\
  max_cpu (stats s) <= max_cpu (stats (fst (monitor_system start envs s))) /\
  max_ram (stats s) <= max_ram (stats (fst (monitor_system start envs s))) /\
  max_disk (stats s) <= max_disk (stats (fst (monitor_system start envs s))).
Proof.
  revert s. induction envs as [|env rest IH]; intros s.
  - cbn. repeat split; try lia; apply Qle_refl.
  - cbn [monitor_system].
    pose proof (iteration_stats_grow start env s) as H1.
    destruct (iteration start env s) as [s1 out1]. cbn [fst] in H1.
    specialize (IH s1).
    destruct (monitor_system start rest s1) as [s2 out2]. cbn [fst] in *.
    destruct H1 as (A1 & A2 & A3 & A4 & A5 & A6).
    destruct IH as (B1 & B2 & B3 & B4 & B5 & B6).
    repeat split; try lia; eapply Qle_trans; eassumption.
Qed.

Lemma Forall_le_trans (a b : Q) (l : list Q) :
  a <= b -> Forall (fun v => v <= a) l -> Forall (fun v => v <= b) l.
Proof.
  intros Hab H. induction H; constructor; [eapply Qle_trans; eassumption|assumption].
Qed.

(** X11. At every iteration boundary of a session each peak value is at
    least 0 and at least every sample currently held in the history of
    its metric. *)
Theorem peaks_dominate_history (s : App) :
  reachable s ->
  (0 <= max_cpu (stats s) /\ Forall (fun v => v <= max_cpu (stats s)) (cpu_history s)) /\
  (0 <= max_ram (stats s) /\ Forall (fun v => v <= max_ram (stats s)) (ram_history s)) /\
  (0 <= max_disk (stats s) /\ Forall (fun v => v <= max_disk (stats s)) (disk_history s)).
Proof.
  revert s. apply reachable_invariant.
  - intros. cbn. repeat split; try discriminate; constructor.
  - intros start env s ((Hc0 & Hc) & (Hr0 & Hr) & (Hd0 & Hd)).
    destruct (iteration_cases start env s)
      as [(e & _ & ->)|(cpu & ram & disk & io & speed & s' & out &
                        Hcp & Hrm & Hdk & Hio & Hs & Hbody & ->)]; cbn [fst].
    + repeat split; assumption.
    + destruct (try_body_ok start env s cpu ram disk io speed Hcp Hrm Hdk Hio Hs)
        as (s2 & out2 & Heq & Hch & Hrh & Hdh & _ & _ & _ & _ & Hmc & Hmr & Hmd & _).
      rewrite Hbody in Heq. injection Heq as <- <-.
      rewrite Hch, Hrh, Hdh, Hmc, Hmr, Hmd.
      refine (conj (conj _ _) (conj (conj _ _) (conj _ _))).
      * exact (Qle_trans _ _ _ Hc0 (py_max_ge_l _ _)).
      * apply Forall_append; [|apply py_max_ge_r].
        exact (Forall_le_trans _ _ _ (py_max_ge_l _ _) Hc).
      * exact (Qle_trans _ _ _ Hr0 (py_max_ge_l _ _)).
      * apply Forall_append; [|apply py_max_ge_r].
        exact (Forall_le_trans _ _ _ (py_max_ge_l _ _) Hr).
      * exact (Qle_trans _ _ _ Hd0 (py_max_ge_l _ _)).
      * apply Forall_append; [|apply py_max_ge_r].
        exact (Forall_le_trans _ _ _ (py_max_ge_l _ _) Hd).
Qed.

Lemma peaks_dominate_history_witness :
  let s := fst (monitor_system 0
                  [sample_env 10 20 30 (mkNetIO 0 0) 1 90 true;
                   sample_env 30 20 10 (mkNetIO 0 0) 4 90 true]
                  (init (mkNetIO 0 0) 0)) in
  Forall (fun v => v <= max_cpu (stats s)) (cpu_history s).
Proof.
  intros s.
  assert (Hs : reachable s) by (unfold reachable, s; do 4 eexists; reflexivity).
  apply (proj2 (proj1 (peaks_dominate_history s Hs))).
Defined.

(** ** The history graph *)

Lemma inject_Z_nonzero (z : Z) : z <> 0%Z -> ~ inject_Z z == 0.
Proof.
  intros H E. unfold Qeq in E. cbn [Qnum Qden inject_Z] in E. lia.
Qed.

(** The points computed for a buffer that does not hold exactly one
    sample. *)
Lemma line_points_ok (data_len : Z) (margin graph_width graph_height : Q) :
  (data_len - 1 <> 0)%Z ->
  forall (data : list Q) (i : Z),
    exists points,
      line_points data i data_len margin graph_width graph_height = Ok points /\
      length points = (2 * length data)%nat /\
      forall (k : nat) (value : Q),
        nth_error data k = Some value ->
        nth_error points (2 * k) =
          Some (margin + inject_Z (i + Z.of_nat k) / inject_Z (data_len - 1) * graph_width) /\
        nth_error points (2 * k + 1) =
          Some (margin + graph_height - value / 100 * graph_height).
Proof.
  intros Hn. induction data as [|value rest IH]; intros i.
  - exists []. repeat split; destruct k; discriminate.
  - destruct (IH (i + 1)%Z) as (pts & Hpts & Hlen & Hnth).
    cbn [line_points].
    rewrite (py_div_ok _ _ (inject_Z_nonzero _ Hn)). cbn [obind].
    rewrite Hpts. cbn [obind]. eexists. split; [reflexivity|]. split.
    + cbn [length]. lia.
    + intros [|k] v Hv.
      * cbn [nth_error] in Hv. injection Hv as <-.
        cbn [Nat.mul Nat.add nth_error Z.of_nat]. rewrite Z.add_0_r. split; reflexivity.
      * cbn [nth_error] in Hv. destruct (Hnth k v Hv) as (Hx & Hy).
        replace (2 * S k)%nat with (S (S (2 * k))) by lia.
        replace (S (S (2 * k)) + 1)%nat with (S (S (2 * k + 1))) by lia.
        cbn [nth_error]. rewrite Hx, Hy.
        replace (i + 1 + Z.of_nat k)%Z with (i + Z.of_nat (S k))%Z by lia.
        split; reflexivity.
Qed.

(** X12. [draw_line_graph] never raises.  It draws nothing for fewer
    than two samples; otherwise it draws one line with two coordinates
    per sample, sample [k] of [n] being placed at
    [x = margin + k / (n - 1) * graph_width] and
    [y = margin + graph_height - value / 100 * graph_height]. *)
Theorem draw_line_graph_points (data : list Q) (color : String.string)
                               (margin graph_width graph_height : Q) :
  ((length data < 2)%nat ->
     draw_line_graph data color margin graph_width graph_height = Ok []) /\
  ((2 <= length data)%nat ->
     exists points,
       draw_line_graph data color margin graph_width graph_height = Ok [(color, points)] /\
       length points = (2 * length data)%nat /\
       forall (k : nat) (value : Q),
         nth_error data k = Some value ->
         nth_error points (2 * k) =
           Some (margin + inject_Z (Z.of_nat k) / inject_Z (Z.of_nat (length data) - 1)
                          * graph_width) /\
         nth_error points (2 * k + 1) =
           Some (margin + graph_height - value / 100 * graph_height)).
Proof.
  unfold draw_line_graph. split; intros H.
  - destruct (Z.ltb_spec (Z.of_nat (length data)) 2); [reflexivity|lia].
  - destruct (Z.ltb_spec (Z.of_nat (length data)) 2); [lia|].
    assert (Hn : (Z.of_nat (length data) - 1 <> 0)%Z) by lia.
    destruct (line_points_ok _ margin graph_width graph_height Hn data 0)
      as (pts & Hpts & Hlen & Hnth).
    rewrite Hpts. cbn [obind].
    destruct (Nat.leb_spec 4 (length pts)); [|lia].
    exists pts. repeat split; try assumption; apply (Hnth k value H2).
Qed.

Lemma draw_line_graph_points_witness :
  draw_line_graph [50] "#FF6B6B"%string 40 200 100 = Ok [] /\
  exists points,
    draw_line_graph [0; 50; 100] "#FF6B6B"%string 40 200 100
      = Ok [("#FF6B6B"%string, points)] /\
    length points = 6%nat.
Proof.
  split.
  - apply (proj1 (draw_line_graph_points [50] "#FF6B6B"%string 40 200 100)).
    cbn. lia.
  - destruct (proj2 (draw_line_graph_points [0; 50; 100] "#FF6B6B"%string 40 200 100))
      as (pts & H1 & H2 & _); [cbn; lia|].
    exists pts. split; assumption.
Defined.

Lemma scaled_within (r z : Q) :
  0 <= r -> r <= 1 -> 0 <= z -> 0 <= r * z /\ r * z <= z.
Proof.
  intros H0 H1 Hz. split.
  - apply Qmult_le_0_compat; assumption.
  - rewrite <- (Qmult_1_l z) at 2. apply Qmult_le_compat_r; assumption.
Qed.

Lemma ratio_within (k n : Z) :
  (0 <= k <= n)%Z -> (0 < n)%Z ->
  0 <= inject_Z k / inject_Z n /\ inject_Z k / inject_Z n <= 1.
Proof.
  intros Hk Hn.
  assert (Hpos : 0 < inject_Z n)
    by (change 0 with (inject_Z 0); rewrite <- Zlt_Qlt; exact Hn).
  split.
  - apply div_nonneg; [|exact Hpos].
    change 0 with (inject_Z 0). rewrite <- Zle_Qle. lia.
  - apply Qle_shift_div_r; [exact Hpos|].
    rewrite Qmult_1_l. rewrite <- Zle_Qle. lia.
Qed.

(** X13. On a canvas area of non-negative width and height, the line
    drawn for at least two samples starts at [x = margin], ends at
    [x = margin + graph_width], and keeps every [x] within these two;
    the [y] of a sample between 0 and 100 lies between [margin] and
    [margin + graph_height]. *)
Theorem draw_line_graph_within_area (data : list Q) (color : String.string)
                                    (margin graph_width graph_height : Q) :
  (2 <= length data)%nat -> 0 <= graph_width -> 0 <= graph_height ->
  exists points,
    draw_line_graph data color margin graph_width graph_height = Ok [(color, points)] /\
    (exists x0, nth_error points 0 = Some x0 /\ x0 == margin) /\
    (exists xn, nth_error points (2 * (length data - 1)) = Some xn /\
                xn == margin + graph_width) /\
    forall (k : nat) (value : Q),
      nth_error data k = Some value ->
      exists x y,
        nth_error points (2 * k) = Some x /\
        nth_error points (2 * k + 1) = Some y /\
        margin <= x /\ x <= margin + graph_width /\
        (0 <= value -> value <= 100 ->
         margin <= y /\ y <= margin + graph_height).
Proof.
  intros Hlen Hw Hh.
  destruct (proj2 (draw_line_graph_points data color margin graph_width graph_height) Hlen)
    as (pts & Hdraw & Hpl & Hnth).
  exists pts. split; [exact Hdraw|].
  assert (Hn : (0 < Z.of_nat (length data) - 1)%Z) by lia.
  split; [|split].
  - destruct data as [|v0 rest]; [cbn in Hlen; lia|].
    destruct (Hnth 0%nat v0 eq_refl) as (Hx & _).
    eexists. split; [exact Hx|].
    change (inject_Z (Z.of_nat 0)) with 0. field.
    apply inject_Z_nonzero. lia.
  - destruct (nth_error data (length data - 1)) as [v|] eqn:E.
    + destruct (Hnth _ v E) as (Hx & _).
      eexists. split; [exact Hx|].
      replace (Z.of_nat (length data - 1)) with (Z.of_nat (length data) - 1)%Z by lia.
      field. apply inject_Z_nonzero. lia.
    + apply nth_error_None in E. lia.
  - intros k value Hk.
    destruct (Hnth k value Hk) as (Hx & Hy).
    assert (Hklt : (k < length data)%nat)
      by (apply nth_error_Some; rewrite Hk; discriminate).
    destruct (ratio_within (Z.of_nat k) (Z.of_nat (length data) - 1)) as (R0 & R1);
      [lia|lia|].
    destruct (scaled_within _ graph_width R0 R1 Hw) as (S0 & S1).
    eexists _, _. split; [exact Hx|]. split; [exact Hy|].
    split; [lra|]. split; [lra|].
    intros V0 V1.
    assert (Q0 : 0 <= value / 100) by (apply div_nonneg; [exact V0|reflexivity]).
    assert (Q1 : value / 100 <= 1)
      by (apply Qle_shift_div_r; [reflexivity|rewrite Qmult_1_l; exact V1]).
    destruct (scaled_within _ graph_height Q0 Q1 Hh) as (T0 & T1).
    split; lra.
Qed.

Lemma draw_line_graph_within_area_witness :
  exists points,
    draw_line_graph [0; 50; 100] "#FF6B6B"%string 40 200 100
      = Ok [("#FF6B6B"%string, points)] /\
    (exists x0, nth_error points 0 = Some x0 /\ x0 == 40) /\
    (exists xn, nth_error points 4 = Some xn /\ xn == 40 + 200).
Proof.
  destruct (draw_line_graph_within_area [0; 50; 100] "#FF6B6B"%string 40 200 100)
    as (pts & H1 & H2 & H3 & _).
  - cbn. lia.
  - discriminate.
  - discriminate.
  - exists pts. repeat split; assumption.
Defined.



(** ** The shape of an iteration *)

(** X15. A tick whose elapsed time since the last completed tick is zero
    is skipped as a whole, like a tick with a failed read: the object is
    left exactly as it was, the handler prints the [ZeroDivisionError],
    and the loop goes on with the following iterations. *)
Theorem zero_elapsed_skips_tick (start : Q) (env : Env) (rest : list Env) (s : App) :
  metric_read_fails env = false ->
  time_at_966 env - last_net_time s == 0 ->
  iteration start env s = (s, [print_error ZeroDivisionError]) /\
  monitor_system start (env :: rest) s =
    (fst (monitor_system start rest s),
     print_error ZeroDivisionError :: snd (monitor_system start rest s)).
Proof.
  intros Hf Hz. unfold metric_read_fails in Hf.
  destruct (cpu_percent env) as [cpu|] eqn:Hc; [|discriminate].
  destruct (virtual_memory_percent env) as [ram|] eqn:Hr; [|discriminate].
  destruct (disk_usage_percent env) as [disk|] eqn:Hd; [|discriminate].
  destruct (net_io_counters env) as [io|] eqn:Hn; [|discriminate].
  assert (Hs : net_speed (last_net_io s) (last_net_time s) io (time_at_966 env)
               = Raised ZeroDivisionError).
  { unfold net_speed. cbv zeta. rewrite (py_div_zero _ _ Hz). reflexivity. }
  assert (Hi : iteration start env s = (s, [print_error ZeroDivisionError])).
  { unfold iteration.
    rewrite (try_body_rate_fails start env s cpu ram disk io _ Hc Hr Hd Hn Hs).
    reflexivity. }
  split; [exact Hi|].
  cbn [monitor_system]. rewrite Hi.
  destruct (monitor_system start rest s) as [s2 out2]. reflexivity.
Qed.

Lemma zero_elapsed_skips_tick_witness :
  iteration 0 (sample_env 10 20 30 (mkNetIO 5 5) 7 90 true) (init (mkNetIO 0 0) 7)
  = (init (mkNetIO 0 0) 7, [print_error ZeroDivisionError]).
Proof.
  apply (zero_elapsed_skips_tick 0 (sample_env 10 20 30 (mkNetIO 5 5) 7 90 true) []
           (init (mkNetIO 0 0) 7)); reflexivity.
Defined.

(** X16. Every iteration issues either one error line and leaves the
    object as it was, or one UI update carrying the readings and their
    mood, followed by at most one alert and then the wait of the poll
    interval.  The alert is issued exactly when that mood is Critical, the
    checkbox is on and [alert_shown] was false; it carries the same
    readings and sets [alert_shown]. *)
Theorem iteration_trace_shape (start : Q) (env : Env) (s : App) :
  (exists e, iteration start env s = (s, [print_error e])) \/
  (exists cpu ram disk speed,
     cpu_percent env = Some cpu /\
     virtual_memory_percent env = Some ram /\
     disk_usage_percent env = Some disk /\
     ((snd (iteration start env s) =
         [after_update_ui cpu ram disk speed
            (determine_mood cpu ram disk (cpu_thresh_slider env));
          time_sleep poll_interval] /\
       ~ (determine_mood cpu ram disk (cpu_thresh_slider env) = critical /\
          alert_enabled env = true /\ alert_shown s = false)) \/
      (snd (iteration start env s) =
         [after_update_ui cpu ram disk speed critical; after_show_alert cpu ram disk;
          time_sleep poll_interval] /\
       determine_mood cpu ram disk (cpu_thresh_slider env) = critical /\
       alert_enabled env = true /\ alert_shown s = false /\
       alert_shown (fst (iteration start env s)) = true))).
Proof.
  destruct (iteration_cases start env s)
    as [(e & _ & Hi)|(cpu & ram & disk & io & speed & s' & out &
                      Hc & Hrm & Hdk & Hio & Hs & Hbody & Hi)].
  - left. exists e. exact Hi.
  - right. exists cpu, ram, disk, speed.
    destruct (try_body_ok start env s cpu ram disk io speed Hc Hrm Hdk Hio Hs)
      as (s2 & out2 & Heq & _ & _ & _ & _ & _ & _ & _ & _ & _ & _ & Hrest).
    rewrite Hbody in Heq. injection Heq as <- <-.
    cbv zeta in Hrest. destruct Hrest as (_ & _ & _ & Hshown & Hout).
    rewrite Hi. cbn [fst snd]. rewrite Hout, Hshown.
    repeat split; try assumption.
    destruct (determine_mood cpu ram disk (cpu_thresh_slider env));
      destruct (alert_shown s); destruct (alert_enabled env); cbn [Mood_eqb andb negb orb];
      try (left; split; [reflexivity|intros (? & ? & ?); discriminate]).
    right. repeat split.
Qed.

(** ** The shares shown by the statistics display *)

Lemma display_configured (s : App) (text : StatsText) :
  update_statistics_display s = Ok (Configure text) ->
  0 < total_time (stats s) /\
  happy_percent text = inject_Z (happy_time (stats s)) / total_time (stats s) * 100 /\
  worried_percent text = inject_Z (worried_time (stats s)) / total_time (stats s) * 100 /\
  critical_percent text = inject_Z (critical_time (stats s)) / total_time (stats s) * 100.
Proof.
  unfold update_statistics_display. cbv zeta.
  destruct (Py.gt (total_time (stats s)) 0) eqn:E; [|discriminate].
  apply gt_true_iff in E.
  assert (Hnz : ~ total_time (stats s) == 0) by (intros Z; rewrite Z in E; discriminate E).
  unfold percent_of. rewrite !(py_div_ok _ _ Hnz). cbn [obind].
  destruct (average (cpu_history s)); cbn [obind]; [|discriminate].
  destruct (average (ram_history s)); cbn [obind]; [|discriminate].
  destruct (average (disk_history s)); cbn [obind]; [|discriminate].
  intros [= <-]. cbn. repeat split. exact E.
Qed.

Lemma share_nonneg (t : Z) (total : Q) :
  (0 <= t)%Z -> 0 < total -> 0 <= inject_Z t / total * 100.
Proof.
  intros Ht Htot. apply Qmult_le_0_compat; [|discriminate].
  apply div_nonneg; [|exact Htot].
  change 0 with (inject_Z 0). rewrite <- Zle_Qle. exact Ht.
Qed.

(** X17. Whenever the statistics display renders after a session, the
    share shown for Happy, Worried and Critical is 100 times 2 s times
    the number of completed ticks of that mood, divided by the recorded
    session time; each share is non-negative. *)
Theorem displayed_shares (start : Q) (envs : list Env) (net0 : NetIO) (t0 : Q)
                         (text : StatsText) :
  update_statistics_display (fst (monitor_system start envs (init net0 t0)))
    = Ok (Configure text) ->
  (happy_percent text =
     inject_Z (2 * ticks_with happy (snd (monitor_system start envs (init net0 t0))))
     / total_time (stats (fst (monitor_system start envs (init net0 t0)))) * 100 /\
   worried_percent text =
     inject_Z (2 * ticks_with worried (snd (monitor_system start envs (init net0 t0))))
     / total_time (stats (fst (monitor_system start envs (init net0 t0)))) * 100 /\
   critical_percent text =
     inject_Z (2 * ticks_with critical (snd (monitor_system start envs (init net0 t0))))
     / total_time (stats (fst (monitor_system start envs (init net0 t0)))) * 100) /\
  0 <= happy_percent text /\ 0 <= worried_percent text /\ 0 <= critical_percent text.
Proof.
  intros H. destruct (display_configured _ _ H) as (Hpos & Hh & Hw & Hc).
  pose proof (counters_follow_trace start envs (init net0 t0)) as Hcnt.
  cbv zeta in Hcnt. cbn [init stats happy_time worried_time critical_time] in Hcnt.
  unfold poll_interval in Hcnt. rewrite !Z.add_0_l in Hcnt.
  destruct Hcnt as (Ch & Cw & Cc).
  rewrite Hh, Hw, Hc, Ch, Cw, Cc.
  refine (conj (conj eq_refl (conj eq_refl eq_refl)) (conj _ (conj _ _)));
    (apply share_nonneg; [unfold ticks_with; lia|exact Hpos]).
Qed.

Lemma displayed_shares_witness :
  exists text,
    update_statistics_display
      (fst (monitor_system 0
              [sample_env 20 40 60 (mkNetIO 0 0) 1 90 true;
               sample_env 80 40 60 (mkNetIO 0 0) 4 90 true]
              (init (mkNetIO 0 0) 0)))
      = Ok (Configure text) /\
    0 <= happy_percent text.
Proof.
  eexists. split.
  - vm_compute. reflexivity.
  - apply (displayed_shares 0
             [sample_env 20 40 60 (mkNetIO 0 0) 1 90 true;
              sample_env 80 40 60 (mkNetIO 0 0) 4 90 true]
             (mkNetIO 0 0) 0).
    vm_compute. reflexivity.
Defined.

(** * Histories, rates and waits over a session *)

(** ** What an iteration does to the histories *)

Lemma append_explicit {A : Type} (h : list A) (x : A) :
  Deque.append maxlen h x = (if (length h <? 60)%nat then h else tl h) ++ [x].
Proof.
  unfold Deque.append, maxlen. rewrite length_app. cbn [length].
  destruct (Nat.ltb_spec 60 (length h + 1)); destruct (Nat.ltb_spec (length h) 60);
    try lia; try reflexivity.
  destruct h; [cbn in *; lia|reflexivity].
Qed.

Lemma append_newest {A : Type} (n : nat) (l : list A) (x : A) :
  Deque.append n (newest n l) x = newest n (l ++ [x]).
Proof.
  unfold newest. rewrite length_app. cbn [length].
  destruct (Nat.le_gt_cases n (length l)) as [Hge|Hlt].
  - rewrite append_full by (rewrite length_skipn; lia).
    replace (length l + 1 - n)%nat with (S (length l - n)) by lia.
    rewrite skipn_succ_tl, skipn_app.
    replace (length l - n - length l)%nat with 0%nat by lia.
    reflexivity.
  - replace (length l - n)%nat with 0%nat by lia.
    replace (length l + 1 - n)%nat with 0%nat by lia.
    cbn [skipn]. apply append_below. exact Hlt.
Qed.

Lemma tick_trace_samples cpu ram disk speed mood (b : bool) (z : Z) :
  let out := after_update_ui cpu ram disk speed mood ::
             (if b then [after_show_alert cpu ram disk] else []) ++ [time_sleep z] in
  cpu_samples out = [cpu] /\ ram_samples out = [ram] /\ disk_samples out = [disk] /\
  net_speeds out = [speed] /\ sleeps out = [z].
Proof. destruct b; repeat split. Qed.

(** Every iteration either skips, or pushes the four readings of the tick
    and reports them. *)
Lemma iteration_samples (start : Q) (env : Env) (s : App) :
  (exists e, iteration start env s = (s, [print_error e])) \/
  (exists cpu ram disk io speed,
     cpu_percent env = Some cpu /\
     virtual_memory_percent env = Some ram /\
     disk_usage_percent env = Some disk /\
     net_io_counters env = Some io /\
     net_speed (last_net_io s) (last_net_time s) io (time_at_966 env) = Ok speed /\
     cpu_history (fst (iteration start env s)) = Deque.append maxlen (cpu_history s) cpu /\
     ram_history (fst (iteration start env s)) = Deque.append maxlen (ram_history s) ram /\
     disk_history (fst (iteration start env s)) = Deque.append maxlen (disk_history s) disk /\
     net_history (fst (iteration start env s)) =
       Deque.append maxlen (net_history s) (net_sample speed) /\
     cpu_samples (snd (iteration start env s)) = [cpu] /\
     ram_samples (snd (iteration start env s)) = [ram] /\
     disk_samples (snd (iteration start env s)) = [disk] /\
     net_speeds (snd (iteration start env s)) = [speed] /\
     sleeps (snd (iteration start env s)) = [poll_interval]).
Proof.
  destruct (iteration_cases start env s)
    as [(e & _ & Hi)|(cpu & ram & disk & io & speed & s' & out &
                      Hc & Hrm & Hdk & Hio & Hs & Hbody & Hi)].
  - left. exists e. exact Hi.
  - right. exists cpu, ram, disk, io, speed.
    destruct (try_body_ok start env s cpu ram disk io speed Hc Hrm Hdk Hio Hs)
      as (s2 & out2 & Heq & Hch & Hrh & Hdh & Hnh & _ & _ & _ & _ & _ & _ & Hrest).
    rewrite Hbody in Heq. injection Heq as <- <-.
    cbv zeta in Hrest. destruct Hrest as (_ & _ & _ & _ & Hout).
    rewrite Hi. cbn [fst snd]. rewrite Hout.
    pose proof (tick_trace_samples cpu ram disk speed
                  (determine_mood cpu ram disk (cpu_thresh_slider env))
                  (Mood_eqb (determine_mood cpu ram disk (cpu_thresh_slider env)) critical
                   && negb (alert_shown s) && alert_enabled env) poll_interval) as Ht.
    cbv zeta in Ht. destruct Ht as (T1 & T2 & T3 & T4 & T5).
    repeat split; assumption.
Qed.

(** A tick whose four reads return and whose elapsed time is not zero
    completes: each history keeps its items, minus the oldest one when it
    already holds 60, and gains the reading of the tick at the newest
    end. *)
Lemma completed_tick (start : Q) (env : Env) (s : App) (cpu ram disk : Q) (io : NetIO) :
  cpu_percent env = Some cpu ->
  virtual_memory_percent env = Some ram ->
  disk_usage_percent env = Some disk ->
  net_io_counters env = Some io ->
  ~ time_at_966 env - last_net_time s == 0 ->
  exists speed,
    net_speed (last_net_io s) (last_net_time s) io (time_at_966 env) = Ok speed /\
    cpu_history (fst (iteration start env s)) =
      (if (length (cpu_history s) <? 60)%nat
       then cpu_history s else tl (cpu_history s)) ++ [cpu] /\
    ram_history (fst (iteration start env s)) =
      (if (length (ram_history s) <? 60)%nat
       then ram_history s else tl (ram_history s)) ++ [ram] /\
    disk_history (fst (iteration start env s)) =
      (if (length (disk_history s) <? 60)%nat
       then disk_history s else tl (disk_history s)) ++ [disk] /\
    net_history (fst (iteration start env s)) =
      (if (length (net_history s) <? 60)%nat
       then net_history s else tl (net_history s)) ++ [net_sample speed] /\
    cpu_samples (snd (iteration start env s)) = [cpu] /\
    ram_samples (snd (iteration start env s)) = [ram] /\
    disk_samples (snd (iteration start env s)) = [disk] /\
    net_speeds (snd (iteration start env s)) = [speed] /\
    sleeps (snd (iteration start env s)) = [poll_interval].
Proof.
  intros Hc Hr Hd Hn Hz.
  pose proof (net_speed_ok (last_net_io s) (last_net_time s) io (time_at_966 env) Hz) as Hs.
  destruct (iteration_samples start env s)
    as [(e & Hi)|(cpu' & ram' & disk' & io' & speed & Hc' & Hr' & Hd' & Hn' & Hs' &
                  H1 & H2 & H3 & H4 & H5 & H6 & H7 & H8 & H9)].
  - exfalso. unfold iteration in Hi.
    destruct (try_body_ok start env s cpu ram disk io _ Hc Hr Hd Hn Hs)
      as (s2 & out2 & Heq & _).
    rewrite Heq in Hi. injection Hi as _ Hout.
    destruct (try_body_ok start env s cpu ram disk io _ Hc Hr Hd Hn Hs)
      as (s3 & out3 & Heq3 & _ & _ & _ & _ & _ & _ & _ & _ & _ & _ & Hrest).
    rewrite Heq in Heq3. injection Heq3 as <- <-.
    cbv zeta in Hrest. destruct Hrest as (_ & _ & _ & _ & Ho).
    rewrite Ho in Hout. discriminate Hout.
  - rewrite Hc in Hc'. rewrite Hr in Hr'. rewrite Hd in Hd'. rewrite Hn in Hn'.
    injection Hc' as <-. injection Hr' as <-. injection Hd' as <-. injection Hn' as <-.
    exists speed. rewrite <- !append_explicit.
    repeat split; assumption.
Qed.

(** Over a run, each history holds the 60 newest of the readings pushed
    so far. *)
Lemma session_histories (start : Q) (envs : list Env) :
  forall (s : App) (pc pr pd pn : list Q),
    cpu_history s = newest maxlen pc ->
    ram_history s = newest maxlen pr ->
    disk_history s = newest maxlen pd ->
    net_history s = newest maxlen pn ->
    cpu_history (fst (monitor_system start envs s)) =
      newest maxlen (pc ++ cpu_samples (snd (monitor_system start envs s))) /\
    ram_history (fst (monitor_system start envs s)) =
      newest maxlen (pr ++ ram_samples (snd (monitor_system start envs s))) /\
    disk_history (fst (monitor_system start envs s)) =
      newest maxlen (pd ++ disk_samples (snd (monitor_system start envs s))) /\
    net_history (fst (monitor_system start envs s)) =
      newest maxlen (pn ++ map net_sample (net_speeds (snd (monitor_system start envs s)))).
Proof.
  induction envs as [|env rest IH]; intros s pc pr pd pn Hc Hr Hd Hn.
  - cbn. rewrite !app_nil_r. repeat split; assumption.
  - cbn [monitor_system].
    destruct (iteration_samples start env s)
      as [(e & Hi)|(cpu & ram & disk & io & speed & _ & _ & _ & _ & _ &
                    H1 & H2 & H3 & H4 & H5 & H6 & H7 & H8 & _)].
    + rewrite Hi. specialize (IH s pc pr pd pn Hc Hr Hd Hn).
      destruct (monitor_system start rest s) as [s2 out2]. cbn [fst snd] in *.
      exact IH.
    + destruct (iteration start env s) as [s1 out1]. cbn [fst snd] in *.
      specialize (IH s1 (pc ++ [cpu]) (pr ++ [ram]) (pd ++ [disk]) (pn ++ [net_sample speed])).
      rewrite H1, H2, H3, H4, Hc, Hr, Hd, Hn, !append_newest in IH.
      specialize (IH eq_refl eq_refl eq_refl eq_refl).
      destruct (monitor_system start rest s1) as [s2 out2]. cbn [fst snd] in *.
      unfold cpu_samples, ram_samples, disk_samples, net_speeds in *.
      rewrite !flat_map_app, H5, H6, H7, H8.
      cbn [map app]. rewrite <- !app_assoc in IH. exact IH.
Qed.

(** C6. Each history buffer never holds more than 60 samples.  A tick
    that completes pushes its reading at the newest end of each buffer
    and, when the buffer already holds 60, drops exactly the oldest
    sample, the others keeping their order; so after any session each
    buffer holds the 60 newest readings of the completed ticks, oldest
    first.  The same holds of the deque on its own, for every sequence of
    pushes. *)
Theorem history_bounded_fifo :
  (forall s : App, reachable s ->
     (length (cpu_history s) <= 60)%nat /\ (length (ram_history s) <= 60)%nat /\
     (length (disk_history s) <= 60)%nat /\ (length (net_history s) <= 60)%nat) /\
  (forall (start : Q) (env : Env) (s : App) (cpu ram disk : Q) (io : NetIO),
     cpu_percent env = Some cpu ->
     virtual_memory_percent env = Some ram ->
     disk_usage_percent env = Some disk ->
     net_io_counters env = Some io ->
     ~ time_at_966 env - last_net_time s == 0 ->
     exists speed,
       net_speed (last_net_io s) (last_net_time s) io (time_at_966 env) = Ok speed /\
       cpu_history (fst (iteration start env s)) =
         (if (length (cpu_history s) <? 60)%nat
          then cpu_history s else tl (cpu_history s)) ++ [cpu] /\
       ram_history (fst (iteration start env s)) =
         (if (length (ram_history s) <? 60)%nat
          then ram_history s else tl (ram_history s)) ++ [ram] /\
       disk_history (fst (iteration start env s)) =
         (if (length (disk_history s) <? 60)%nat
          then disk_history s else tl (disk_history s)) ++ [disk] /\
       net_history (fst (iteration start env s)) =
         (if (length (net_history s) <? 60)%nat
          then net_history s else tl (net_history s)) ++ [net_sample speed] /\
       cpu_samples (snd (iteration start env s)) = [cpu] /\
       ram_samples (snd (iteration start env s)) = [ram] /\
       disk_samples (snd (iteration start env s)) = [disk] /\
       net_speeds (snd (iteration start env s)) = [speed]) /\
  (forall (start : Q) (envs : list Env) (net0 : NetIO) (t0 : Q),
     cpu_history (fst (monitor_system start envs (init net0 t0))) =
       skipn (length (cpu_samples (snd (monitor_system start envs (init net0 t0)))) - 60)
             (cpu_samples (snd (monitor_system start envs (init net0 t0)))) /\
     ram_history (fst (monitor_system start envs (init net0 t0))) =
       skipn (length (ram_samples (snd (monitor_system start envs (init net0 t0)))) - 60)
             (ram_samples (snd (monitor_system start envs (init net0 t0)))) /\
     disk_history (fst (monitor_system start envs (init net0 t0))) =
       skipn (length (disk_samples (snd (monitor_system start envs (init net0 t0)))) - 60)
             (disk_samples (snd (monitor_system start envs (init net0 t0)))) /\
     net_history (fst (monitor_system start envs (init net0 t0))) =
       skipn (length (map net_sample
                        (net_speeds (snd (monitor_system start envs (init net0 t0))))) - 60)
             (map net_sample
                (net_speeds (snd (monitor_system start envs (init net0 t0)))))) /\
  (forall xs : list Q,
     (length (Deque.pushes maxlen xs) <= 60)%nat /\
     Deque.pushes maxlen xs = skipn (length xs - 60) xs) /\
  (forall (oldest : Q) (d : list Q) (x : Q),
     length (oldest :: d) = 60%nat ->
     Deque.append maxlen (oldest :: d) x = d ++ [x]) /\
  (forall (d : list Q) (x : Q),
     (length d < 60)%nat -> Deque.append maxlen d x = d ++ [x]).
Proof.
  split; [|split; [|split; [|split; [|split]]]].
  - intros s Hs. destruct (histories_invariant s Hs) as (H & Hr & Hd & Hn).
    unfold maxlen in H. rewrite Hr, Hd, Hn. repeat split; exact H.
  - intros start env s cpu ram disk io Hc Hr Hd Hn Hz.
    destruct (completed_tick start env s cpu ram disk io Hc Hr Hd Hn Hz)
      as (speed & H0 & H1 & H2 & H3 & H4 & H5 & H6 & H7 & H8 & _).
    exists speed. repeat split; assumption.
  - intros start envs net0 t0.
    apply (session_histories start envs (init net0 t0) [] [] [] []); reflexivity.
  - intros xs. rewrite (pushes_skipn maxlen xs). unfold maxlen.
    split; [|reflexivity]. rewrite length_skipn. lia.
  - intros oldest d x H. rewrite (append_full maxlen) by exact H. reflexivity.
  - intros d x H. apply (append_below maxlen). exact H.
Qed.

Lemma history_bounded_fifo_witness :
  (exists speed,
     net_speed (mkNetIO 0 0) 0 (mkNetIO 2048 0) 2 = Ok speed /\
     cpu_history (fst (iteration 0 (sample_env 10 20 30 (mkNetIO 2048 0) 2 90 true)
                         (init (mkNetIO 0 0) 0))) = [10]) /\
  Deque.append maxlen (map inject_Z (map Z.of_nat (seq 0 60))) 60
  = map inject_Z (map Z.of_nat (seq 1 59)) ++ [60].
Proof.
  split.
  - destruct (proj1 (proj2 history_bounded_fifo) 0
                (sample_env 10 20 30 (mkNetIO 2048 0) 2 90 true)
                (init (mkNetIO 0 0) 0) 10 20 30 (mkNetIO 2048 0)
                eq_refl eq_refl eq_refl eq_refl)
      as (speed & H0 & H1 & _).
    + discriminate.
    + exists speed. split; [exact H0|exact H1].
  - apply (proj1 (proj2 (proj2 (proj2 (proj2 history_bounded_fifo)))) 0
             (map inject_Z (map Z.of_nat (seq 1 59))) 60).
    reflexivity.
Defined.

(** C10. Every tick that completes puts exactly one sample, the reading
    of that tick, at the newest end of each of the four history buffers
    (cpu, ram, disk, network), and a skipped tick changes none of them.
    So after any session every buffer holds as many samples as ticks were
    completed, up to the capacity of 60, and the four buffers have equal
    lengths. *)
Theorem histories_grow_together :
  (forall (start : Q) (env : Env) (s s' : App) (out : list Event),
     try_body start env s = (Ok tt, s', out) ->
     exists cpu ram disk speed,
       cpu_percent env = Some cpu /\
       virtual_memory_percent env = Some ram /\
       disk_usage_percent env = Some disk /\
       cpu_history s' = Deque.append maxlen (cpu_history s) cpu /\
       ram_history s' = Deque.append maxlen (ram_history s) ram /\
       disk_history s' = Deque.append maxlen (disk_history s) disk /\
       net_history s' = Deque.append maxlen (net_history s) (net_sample speed)) /\
  (forall s : App, reachable s ->
     length (ram_history s) = length (cpu_history s) /\
     length (disk_history s) = length (cpu_history s) /\
     length (net_history s) = length (cpu_history s)) /\
  (forall (start : Q) (env : Env) (s : App) (cpu ram disk : Q) (io : NetIO),
     cpu_percent env = Some cpu ->
     virtual_memory_percent env = Some ram ->
     disk_usage_percent env = Some disk ->
     net_io_counters env = Some io ->
     ~ time_at_966 env - last_net_time s == 0 ->
     exists speed,
       net_speed (last_net_io s) (last_net_time s) io (time_at_966 env) = Ok speed /\
       cpu_history (fst (iteration start env s)) =
         (if (length (cpu_history s) <? 60)%nat
          then cpu_history s else tl (cpu_history s)) ++ [cpu] /\
       ram_history (fst (iteration start env s)) =
         (if (length (ram_history s) <? 60)%nat
          then ram_history s else tl (ram_history s)) ++ [ram] /\
       disk_history (fst (iteration start env s)) =
         (if (length (disk_history s) <? 60)%nat
          then disk_history s else tl (disk_history s)) ++ [disk] /\
       net_history (fst (iteration start env s)) =
         (if (length (net_history s) <? 60)%nat
          then net_history s else tl (net_history s)) ++ [net_sample speed]) /\
  (forall (start : Q) (env : Env) (s : App),
     cpu_samples (snd (iteration start env s)) = [] ->
     cpu_history (fst (iteration start env s)) = cpu_history s /\
     ram_history (fst (iteration start env s)) = ram_history s /\
     disk_history (fst (iteration start env s)) = disk_history s /\
     net_history (fst (iteration start env s)) = net_history s) /\
  (forall (start : Q) (envs : list Env) (net0 : NetIO) (t0 : Q),
     length (cpu_history (fst (monitor_system start envs (init net0 t0)))) =
       Nat.min (length (cpu_samples (snd (monitor_system start envs (init net0 t0))))) 60 /\
     length (ram_history (fst (monitor_system start envs (init net0 t0)))) =
       Nat.min (length (cpu_samples (snd (monitor_system start envs (init net0 t0))))) 60 /\
     length (disk_history (fst (monitor_system start envs (init net0 t0)))) =
       Nat.min (length (cpu_samples (snd (monitor_system start envs (init net0 t0))))) 60 /\
     length (net_history (fst (monitor_system start envs (init net0 t0)))) =
       Nat.min (length (cpu_samples (snd (monitor_system start envs (init net0 t0))))) 60).
Proof.
  split; [|split; [|split; [|split]]].
  - intros start env s s' out Hok.
    destruct (iteration_cases start env s)
      as [(e & Hr & _)|(cpu & ram & disk & io & speed & s1 & out1 &
                        Hc & Hrm & Hdk & Hio & Hs & _ & _)].
    + rewrite Hr in Hok. discriminate.
    + destruct (try_body_ok start env s cpu ram disk io speed Hc Hrm Hdk Hio Hs)
        as (s2 & out2 & Heq & Hch & Hrh & Hdh & Hnh & _).
      rewrite Hok in Heq. injection Heq as <- <-.
      exists cpu, ram, disk, speed. repeat split; assumption.
  - intros s Hs. destruct (histories_invariant s Hs) as (_ & H). exact H.
  - intros start env s cpu ram disk io Hc Hr Hd Hn Hz.
    destruct (completed_tick start env s cpu ram disk io Hc Hr Hd Hn Hz)
      as (speed & H0 & H1 & H2 & H3 & H4 & _).
    exists speed. repeat split; assumption.
  - intros start env s Hnone.
    destruct (iteration_samples start env s)
      as [(e & Hi)|(cpu & ram & disk & io & speed & _ & _ & _ & _ & _ &
                    _ & _ & _ & _ & H5 & _)].
    + rewrite Hi. repeat split.
    + rewrite H5 in Hnone. discriminate Hnone.
  - intros start envs net0 t0.
    pose proof (session_histories start envs (init net0 t0) [] [] [] []
                  eq_refl eq_refl eq_refl eq_refl) as (Hc & _).
    assert (Hs : reachable (fst (monitor_system start envs (init net0 t0))))
      by (exists net0, t0, start, envs; reflexivity).
    destruct (histories_invariant _ Hs) as (_ & Hr & Hd & Hn).
    rewrite Hr, Hd, Hn, Hc. cbn [app]. unfold newest, maxlen.
    rewrite length_skipn. repeat split; lia.
Qed.

Lemma histories_grow_together_witness :
  exists speed,
    net_speed (mkNetIO 0 0) 0 (mkNetIO 2048 0) 2 = Ok speed /\
    cpu_history (fst (iteration 0 (sample_env 10 20 30 (mkNetIO 2048 0) 2 90 true)
                        (init (mkNetIO 0 0) 0))) = [10] /\
    ram_history (fst (iteration 0 (sample_env 10 20 30 (mkNetIO 2048 0) 2 90 true)
                        (init (mkNetIO 0 0) 0))) = [20] /\
    disk_history (fst (iteration 0 (sample_env 10 20 30 (mkNetIO 2048 0) 2 90 true)
                         (init (mkNetIO 0 0) 0))) = [30] /\
    net_history (fst (iteration 0 (sample_env 10 20 30 (mkNetIO 2048 0) 2 90 true)
                        (init (mkNetIO 0 0) 0))) = [net_sample speed].
Proof.
  apply (proj1 (proj2 (proj2 histories_grow_together)) 0
           (sample_env 10 20 30 (mkNetIO 2048 0) 2 90 true)
           (init (mkNetIO 0 0) 0) 10 20 30 (mkNetIO 2048 0)
           eq_refl eq_refl eq_refl eq_refl).
  discriminate.
Defined.

(** ** What the network history holds *)

(** One tick after the counters went down from 5000000 to 0 stores a
    negative sample. *)
Lemma net_history_negative_sample :
  exists v,
    net_history (fst (monitor_system 0
                        [sample_env 10 10 10 (mkNetIO 0 0) 2 90 true]
                        (init (mkNetIO 5000000 5000000) 0))) = [v] /\
    v < 0.
Proof. eexists. split; [vm_compute; reflexivity|reflexivity]. Qed.

Lemma Forall_within_append (n : nat) (d : list Q) (x : Q) :
  Forall (fun v => 0 <= v /\ v <= 100) d -> 0 <= x -> x <= 100 ->
  Forall (fun v => 0 <= v /\ v <= 100) (Deque.append n d x).
Proof.
  intros Hd H0 H1. apply Forall_append; [exact Hd|split; assumption].
Qed.

(** While the clock advances and the counters do not go down, every
    sample pushed lies between 0 and 100. *)
Lemma net_history_within (start : Q) (envs : list Env) :
  forall s : App,
    Forall (fun v => 0 <= v /\ v <= 100) (net_history s) ->
    net_advances_throughout start envs s ->
    Forall (fun v => 0 <= v /\ v <= 100)
           (net_history (fst (monitor_system start envs s))).
Proof.
  induction envs as [|env rest IH]; intros s Hs Hadv; [exact Hs|].
  cbn [monitor_system]. cbn [net_advances_throughout] in Hadv.
  destruct Hadv as (Hnow & Hlater).
  assert (H1 : Forall (fun v => 0 <= v /\ v <= 100)
                      (net_history (fst (iteration start env s)))).
  { destruct (iteration_samples start env s)
      as [(e & Hi)|(cpu & ram & disk & io & speed & _ & _ & _ & Hio & Hsp &
                    _ & _ & _ & H4 & _)].
    - rewrite Hi. exact Hs.
    - rewrite H4. unfold net_advances in Hnow. rewrite Hio in Hnow.
      destruct Hnow as (Ht & Hsent & Hrecv).
      destruct (net_speed_nonneg _ _ _ _ Ht Hsent Hrecv) as (v & Hv & Hpos).
      rewrite Hsp in Hv. injection Hv as <-.
      apply Forall_within_append;
        [exact Hs|apply net_sample_nonneg; exact Hpos|apply net_sample_le_100]. }
  specialize (IH (fst (iteration start env s)) H1 Hlater).
  destruct (iteration start env s) as [s1 out1]. cbn [fst] in *.
  destruct (monitor_system start rest s1) as [s2 out2]. exact IH.
Qed.

(** C9 (amended). Every value held by the network history buffer is at
    most 100.  A tick that finds a later clock and byte counters that
    have not gone down completes and pushes a value between 0 and 100,
    namely [net_sample] of its rate; so in a session in which every
    iteration finds them so, every value held by the buffer is between 0
    and 100. *)
Theorem net_history_at_most_100 :
  (forall s : App, reachable s -> Forall (fun v => v <= 100) (net_history s)) /\
  (forall (prev curr : NetIO) (prev_time curr_time : Q),
     prev_time < curr_time ->
     (bytes_sent prev <= bytes_sent curr)%Z ->
     (bytes_recv prev <= bytes_recv curr)%Z ->
     exists speed,
       net_speed prev prev_time curr curr_time = Ok speed /\
       0 <= net_sample speed /\ net_sample speed <= 100) /\
  (forall (start : Q) (env : Env) (s : App) (cpu ram disk : Q) (io : NetIO),
     cpu_percent env = Some cpu ->
     virtual_memory_percent env = Some ram ->
     disk_usage_percent env = Some disk ->
     net_io_counters env = Some io ->
     last_net_time s < time_at_966 env ->
     (bytes_sent (last_net_io s) <= bytes_sent io)%Z ->
     (bytes_recv (last_net_io s) <= bytes_recv io)%Z ->
     exists stored,
       net_history (fst (iteration start env s)) =
         (if (length (net_history s) <? 60)%nat
          then net_history s else tl (net_history s)) ++ [stored] /\
       0 <= stored /\ stored <= 100) /\
  (forall (start : Q) (envs : list Env) (net0 : NetIO) (t0 : Q),
     net_advances_throughout start envs (init net0 t0) ->
     Forall (fun v => 0 <= v /\ v <= 100)
            (net_history (fst (monitor_system start envs (init net0 t0))))).
Proof.
  split; [|split; [|split]].
  - apply reachable_invariant.
    + intros. constructor.
    + intros start env s H.
      destruct (iteration_cases start env s)
        as [(e & _ & ->)|(cpu & ram & disk & io & speed & s' & out &
                          Hc & Hrm & Hdk & Hio & Hs & Hbody & ->)];
        cbn [fst]; [exact H|].
      destruct (try_body_ok start env s cpu ram disk io speed Hc Hrm Hdk Hio Hs)
        as (s2 & out2 & Heq & _ & _ & _ & Hnh & _).
      rewrite Hbody in Heq. injection Heq as <- <-.
      rewrite Hnh. apply Forall_append; [exact H|apply net_sample_le_100].
  - intros prev curr prev_time curr_time Ht Hs Hr.
    destruct (net_speed_nonneg prev prev_time curr curr_time Ht Hs Hr) as (v & Hv & Hpos).
    exists v. split; [exact Hv|].
    split; [apply net_sample_nonneg; exact Hpos|apply net_sample_le_100].
  - intros start env s cpu ram disk io Hc Hr Hd Hn Ht Hsent Hrecv.
    assert (Hz : ~ time_at_966 env - last_net_time s == 0) by (intros E; lra).
    destruct (completed_tick start env s cpu ram disk io Hc Hr Hd Hn Hz)
      as (speed & H0 & _ & _ & _ & H4 & _).
    destruct (net_speed_nonneg _ _ _ _ Ht Hsent Hrecv) as (v & Hv & Hpos).
    rewrite H0 in Hv. injection Hv as <-.
    exists (net_sample speed). split; [exact H4|].
    split; [apply net_sample_nonneg; exact Hpos|apply net_sample_le_100].
  - intros start envs net0 t0 Hadv.
    apply (net_history_within start envs (init net0 t0)); [constructor|exact Hadv].
Qed.

Lemma net_history_at_most_100_witness :
  Forall (fun v => 0 <= v /\ v <= 100)
    (net_history (fst (monitor_system 0
                         [sample_env 10 10 10 (mkNetIO 900000000 0) 2 90 true;
                          sample_env 10 10 10 (mkNetIO 900000000 4096) 5 90 true]
                         (init (mkNetIO 0 0) 0)))).
Proof.
  apply (proj2 (proj2 (proj2 net_history_at_most_100))).
  vm_compute. repeat split; discriminate.
Defined.

(** ** Skipped ticks and the poll cadence *)

(** C7. When a metric read fails during a tick, the tick is skipped as a
    whole: the object is left exactly as it was (no sample appended, no
    statistic changed), the handler only prints, and the loop goes on with
    the following iterations.  The wait of the poll interval, however, is
    the last statement of the [try] block: an iteration that completes
    ends with it, an iteration with a failed read issues none, so the
    next poll starts at once. *)
Theorem failed_read_skips_tick (start : Q) (env : Env) (rest : list Env) (s : App) :
  metric_read_fails env = true ->
  try_body start env s = (Raised MetricError, s, []) /\
  iteration start env s = (s, [print_error MetricError]) /\
  monitor_system start (env :: rest) s =
    (fst (monitor_system start rest s),
     print_error MetricError :: snd (monitor_system start rest s)) /\
  sleeps (snd (iteration start env s)) = [] /\
  (forall (env' : Env) (s1 s2 : App) (out : list Event),
     try_body start env' s1 = (Ok tt, s2, out) ->
     sleeps out = [poll_interval] /\
     exists before, out = before ++ [time_sleep poll_interval]).
Proof.
  intros H.
  pose proof (try_body_read_fails start env s H) as Hb.
  assert (Hi : iteration start env s = (s, [print_error MetricError]))
    by (unfold iteration; rewrite Hb; reflexivity).
  split; [exact Hb|]. split; [exact Hi|]. split; [|split].
  - cbn [monitor_system]. rewrite Hi.
    destruct (monitor_system start rest s) as [s2 out2]. reflexivity.
  - rewrite Hi. reflexivity.
  - intros env' s1 s2 out Hok.
    destruct (iteration_cases start env' s1)
      as [(e & Hr & _)|(cpu & ram & disk & io & speed & s' & out' &
                        Hc & Hrm & Hdk & Hio & Hs & _ & _)].
    + rewrite Hr in Hok. discriminate.
    + destruct (try_body_ok start env' s1 cpu ram disk io speed Hc Hrm Hdk Hio Hs)
        as (s3 & out3 & Heq & _ & _ & _ & _ & _ & _ & _ & _ & _ & _ & Hrest).
      rewrite Hok in Heq. injection Heq as <- <-.
      cbv zeta in Hrest. destruct Hrest as (_ & _ & _ & _ & ->).
      split.
      * apply (tick_trace_samples cpu ram disk speed).
      * eexists (_ :: _). reflexivity.
Qed.

Lemma failed_read_skips_tick_witness :
  iteration 0 (mkEnv (Some 10) None (Some 30) (Some (mkNetIO 5 5)) 1 1 90 true)
            (init (mkNetIO 0 0) 0)
  = (init (mkNetIO 0 0) 0, [print_error MetricError]) /\
  sleeps (snd (iteration 0
                 (mkEnv (Some 10) None (Some 30) (Some (mkNetIO 5 5)) 1 1 90 true)
                 (init (mkNetIO 0 0) 0))) = [].
Proof.
  destruct (failed_read_skips_tick 0
              (mkEnv (Some 10) None (Some 30) (Some (mkNetIO 5 5)) 1 1 90 true)
              [] (init (mkNetIO 0 0) 0) eq_refl) as (_ & H2 & _ & H4 & _).
  split; [exact H2|exact H4].
Defined.
